(** * A 16-bit general-purpose-register CPU emulator: Bus, decoder, ALU flags,
      fetch-decode-execute step and run loop (gpr_cpu.cpp).

    The C++ objects are embedded as records and the member functions as
    functions that take the object and return the updated one.  Unsigned
    machine integers are values of [Z]; every conversion to a narrower
    unsigned type is written out as a reduction modulo a power of two.

    The header gpr_cpu.h is not part of the examined sources.  What the
    implementation takes from it (the memory capacity, the three flag masks,
    the width of the FLAGS field, the numeric values of the enumerators of
    [Opcode], and the width of [size_t]) enters the development as Section
    variables, with the assumptions on them stated as Section hypotheses. *)

From Stdlib Require Import ZArith Lia Bool.
From stdpp Require Import base numbers list.

Local Open Scope Z_scope.

(** ** Machine integers *)

(** Conversion of an int-typed expression to [uint8_t] and [uint16_t]. *)
Definition u8 (x : Z) : Z := x mod 2 ^ 8.
Definition u16 (x : Z) : Z := x mod 2 ^ 16.

(** A C++ integer used as a condition: true when it is not zero. *)
Definition nonzero (x : Z) : bool := negb (x =? 0).

(** ** The enumeration [Opcode] *)

Module Opcode.

Inductive t : Set :=
  | HALT | MOVI | MOV | LOAD | STORE | ADD | SUB | AND
  | OR | XOR | NOT | SHL | SHR | JMP | JZ | NOP.

Definition all : list t :=
  [HALT; MOVI; MOV; LOAD; STORE; ADD; SUB; AND;
   OR; XOR; NOT; SHL; SHR; JMP; JZ; NOP].

End Opcode.

(** The operations that update the flags, and those among them that
    only compute ZERO and NEGATIVE from their result. *)
Definition flag_affecting (o : Opcode.t) : bool :=
  match o with
  | Opcode.MOVI | Opcode.MOV | Opcode.LOAD | Opcode.ADD | Opcode.SUB
  | Opcode.AND | Opcode.OR | Opcode.XOR | Opcode.NOT
  | Opcode.SHL | Opcode.SHR => true
  | _ => false
  end.

Definition zn_only (o : Opcode.t) : bool :=
  match o with
  | Opcode.MOVI | Opcode.MOV | Opcode.LOAD
  | Opcode.AND | Opcode.OR | Opcode.XOR | Opcode.NOT => true
  | _ => false
  end.

(** The CARRY that an operation computes from the values [a] of Rd and
    [b] of Rs before the instruction: the carry out of bit 15 for ADD, no
    borrow for SUB, the bit shifted out for SHL and SHR, and none for the
    operations that only compute ZERO and NEGATIVE. *)
Definition carry_rule (o : Opcode.t) (a b : Z) : bool :=
  match o with
  | Opcode.ADD => a + b >? 0xFFFF
  | Opcode.SUB => a >=? b
  | Opcode.SHL => Z.testbit a 15
  | Opcode.SHR => Z.testbit a 0
  | _ => false
  end.

(** ** Objects *)

(** [Bus]: the owned array [memory] of 16-bit cells. *)
Record Bus : Type := mkBus { memory : list Z }.

(** [CPUState]: register file [R[8]], [PC], [FLAGS] and [halted]. *)
Record CPUState : Type := mkState {
  R : list Z;
  PC : Z;
  FLAGS : Z;
  halted : bool
}.

(** [GPRCPU]: the core together with the Bus it refers to.  The [tracing]
    member only selects whether [printf] is called; printing changes
    neither the state nor the control flow and is left out. *)
Record GPRCPU : Type := mkCPU { bus : Bus; state : CPUState }.

Definition set_R (i v : Z) (cpu : GPRCPU) : GPRCPU :=
  let st := state cpu in
  mkCPU (bus cpu)
        (mkState (<[Z.to_nat i := v]> (R st)) (PC st) (FLAGS st) (halted st)).

Definition set_PC (v : Z) (cpu : GPRCPU) : GPRCPU :=
  let st := state cpu in
  mkCPU (bus cpu) (mkState (R st) v (FLAGS st) (halted st)).

Definition set_FLAGS (v : Z) (cpu : GPRCPU) : GPRCPU :=
  let st := state cpu in
  mkCPU (bus cpu) (mkState (R st) (PC st) v (halted st)).

Definition set_halted (v : bool) (cpu : GPRCPU) : GPRCPU :=
  let st := state cpu in
  mkCPU (bus cpu) (mkState (R st) (PC st) (FLAGS st) v).

Definition set_bus (b : Bus) (cpu : GPRCPU) : GPRCPU :=
  mkCPU b (state cpu).

(** [state.R[i]] *)
Definition reg (i : Z) (cpu : GPRCPU) : Z := R (state cpu) !!! Z.to_nat i.

(** ** Decode helpers (static, independent of the header) *)

Definition decodeOpcode (inst : Z) : Z := u8 (Z.land (Z.shiftr inst 12) 0xF).
Definition decodeRd (inst : Z) : Z := u8 (Z.land (Z.shiftr inst 9) 0x7).
Definition decodeRs (inst : Z) : Z := u8 (Z.land (Z.shiftr inst 6) 0x7).
Definition decodeImm9 (inst : Z) : Z := u16 (Z.land inst 0x1FF).

(** The bit range [hi:lo] of a word, in the words of the specification:
    the number whose binary digits are the bits lo..hi of [w]. *)
Definition bit_range (w hi lo : Z) : Z := (w / 2 ^ lo) mod 2 ^ (hi - lo + 1).

(** Two words agree on the bit range [hi:lo]. *)
Definition same_bits (w w' hi lo : Z) : Prop :=
  forall i, lo <= i <= hi -> Z.testbit w i = Z.testbit w' i.

(** Value ranges of the unsigned types. *)
Definition is_u16 (x : Z) : Prop := 0 <= x < 2 ^ 16.

(** The representation invariant of the objects: eight 16-bit registers,
    16-bit PC. *)
Definition state_ok (st : CPUState) : Prop :=
  length (R st) = 8%nat /\ Forall is_u16 (R st) /\ is_u16 (PC st).

(** ** A header instance and machines to run the model on *)

(** One header that meets the assumptions made below: a memory of 64K
    words, the flag masks on bits 0 to 2 of an 8-bit field, the opcodes
    numbered in the order of the enumeration, a 64-bit [size_t]. *)
Module Sample.

Definition MEMORY_SIZE : Z := 65536.
Definition FLAG_ZERO : Z := 1.
Definition FLAG_CARRY : Z := 2.
Definition FLAG_NEGATIVE : Z := 4.
Definition FLAGS_BITS : Z := 8.
Definition SIZE_BITS : Z := 64.

Definition opcode_value (o : Opcode.t) : Z :=
  match o with
  | Opcode.HALT => 0 | Opcode.MOVI => 1 | Opcode.MOV => 2 | Opcode.LOAD => 3
  | Opcode.STORE => 4 | Opcode.ADD => 5 | Opcode.SUB => 6 | Opcode.AND => 7
  | Opcode.OR => 8 | Opcode.XOR => 9 | Opcode.NOT => 10 | Opcode.SHL => 11
  | Opcode.SHR => 12 | Opcode.JMP => 13 | Opcode.JZ => 14 | Opcode.NOP => 15
  end.

(** The memory that holds the words [prog] from address 0 on and zero
    everywhere else. *)
Definition load (prog : list Z) : Bus :=
  mkBus (prog ++ replicate (Z.to_nat MEMORY_SIZE - length prog) 0).

(** A machine with the given program, registers R0 and R1, and FLAGS; the
    other registers and PC are zero. *)
Definition machine (prog : list Z) (r0 r1 flags : Z) (h : bool) : GPRCPU :=
  mkCPU (load prog) (mkState [r0; r1; 0; 0; 0; 0; 0; 0] 0 flags h).

(** Instruction words under [opcode_value]. *)
Definition MOVI_R0_5 : Z := 0x1005.
Definition HALT_ : Z := 0x0000.
Definition MOV_R0_R1 : Z := 0x2040.
Definition STORE_R0_R1 : Z := 0x4040.
Definition ADD_R0_R1 : Z := 0x5040.
Definition SUB_R0_R1 : Z := 0x6040.
Definition SHL_R0 : Z := 0xB000.
Definition SHR_R0 : Z := 0xC000.
Definition JMP_R1 : Z := 0xD040.
Definition JZ_R1 : Z := 0xE040.

End Sample.

(** More instruction words under [Sample.opcode_value], and a machine of
    four memory cells with PC beyond them. *)
Module Demo.

Definition LOAD_R0_R1 : Z := 0x3040.
Definition ADD_R0_R0 : Z := 0x5000.
Definition AND_R0_R1 : Z := 0x7040.
Definition OR_R0_R1 : Z := 0x8040.
Definition XOR_R0_R1 : Z := 0x9040.
Definition NOT_R0_R1 : Z := 0xA040.
Definition NOT_R0_R0 : Z := 0xA000.
Definition NOP_ : Z := 0xF000.

Definition small_memory : Z := 4.

(** A 64-bit [unsigned long]. *)
Definition ULONG_BITS : Z := 64.

(** A machine of four memory cells that holds MOVI R0, 5; HALT. *)
Definition program_machine : GPRCPU :=
  mkCPU (mkBus [Sample.MOVI_R0_5; Sample.HALT_; Sample.HALT_; Sample.HALT_])
        (mkState (replicate 8 0) 0 0 false).

Definition small_machine (pc : Z) : GPRCPU :=
  mkCPU (mkBus [Sample.MOVI_R0_5; Sample.MOVI_R0_5; Sample.MOVI_R0_5; Sample.MOVI_R0_5])
        (mkState [11; 22; 33; 44; 55; 66; 77; 88] pc 0 false).

End Demo.

(** ** Input lines of the driver *)

(** A line read by [std::getline] in [main], as far as [main] looks at it:
    empty; or non-empty without a number at its start, on which
    [std::stoul] throws [std::invalid_argument]; or non-empty with a
    number at its start, given by its sign and its magnitude. *)
Inductive input_line : Type :=
  | Empty
  | NoNumber
  | Number (negative : bool) (magnitude : N).

Section GPR.

(** *** What gpr_cpu.h provides *)

(** Number of cells of the memory array. *)
Variable MEMORY_SIZE : Z.

(** The three flag masks and the bit width of the [FLAGS] field. *)
Variables FLAG_ZERO FLAG_CARRY FLAG_NEGATIVE : Z.
Variable FLAGS_BITS : Z.

(** The numeric value of each enumerator of [Opcode]. *)
Variable opcode_value : Opcode.t -> Z.

(** The bit width of [size_t]. *)
Variable SIZE_BITS : Z.

(** ** Bus *)

Definition Bus_read (b : Bus) (address : Z) : Z :=
  if address <? MEMORY_SIZE then memory b !!! Z.to_nat address else 0.

Definition Bus_write (b : Bus) (address value : Z) : Bus :=
  if address <? MEMORY_SIZE
  then mkBus (<[Z.to_nat address := value]> (memory b))
  else b.

(** The array has [MEMORY_SIZE] cells, each a 16-bit value. *)
Definition bus_ok (b : Bus) : Prop :=
  length (memory b) = Z.to_nat MEMORY_SIZE /\ Forall is_u16 (memory b).

(** ** Flag updates *)

(** Conversion to the type of the [FLAGS] field. *)
Definition uflags (x : Z) : Z := x mod 2 ^ FLAGS_BITS.

(** [state.FLAGS &= ~(FLAG_ZERO | FLAG_CARRY | FLAG_NEGATIVE)] *)
Definition clear_flags (cpu : GPRCPU) : GPRCPU :=
  set_FLAGS
    (uflags (Z.land (FLAGS (state cpu))
                    (Z.lnot (Z.lor (Z.lor FLAG_ZERO FLAG_CARRY) FLAG_NEGATIVE))))
    cpu.

(** [if (c) state.FLAGS |= mask] *)
Definition or_flag_if (c : bool) (mask : Z) (cpu : GPRCPU) : GPRCPU :=
  if c then set_FLAGS (uflags (Z.lor (FLAGS (state cpu)) mask)) cpu else cpu.

(** [state.FLAGS & mask] used as a condition. *)
Definition flag (mask : Z) (cpu : GPRCPU) : bool :=
  nonzero (Z.land (FLAGS (state cpu)) mask).

Definition setResultFlags (result : Z) (cpu : GPRCPU) : GPRCPU :=
  let cpu := clear_flags cpu in
  let cpu := or_flag_if (result =? 0) FLAG_ZERO cpu in
  let cpu := or_flag_if (nonzero (Z.land result 0x8000)) FLAG_NEGATIVE cpu in
  cpu.

Definition setAddFlags (a b result : Z) (cpu : GPRCPU) : GPRCPU :=
  let cpu := clear_flags cpu in
  let cpu := or_flag_if (result =? 0) FLAG_ZERO cpu in
  let cpu := or_flag_if (nonzero (Z.land result 0x8000)) FLAG_NEGATIVE cpu in
  let cpu := or_flag_if (a + b >? 0xFFFF) FLAG_CARRY cpu in
  cpu.

Definition setSubFlags (a b result : Z) (cpu : GPRCPU) : GPRCPU :=
  let cpu := clear_flags cpu in
  let cpu := or_flag_if (result =? 0) FLAG_ZERO cpu in
  let cpu := or_flag_if (nonzero (Z.land result 0x8000)) FLAG_NEGATIVE cpu in
  let cpu := or_flag_if (a >=? b) FLAG_CARRY cpu in
  cpu.

(** ** Construction and reset *)

Definition reset (cpu : GPRCPU) : GPRCPU :=
  mkCPU (bus cpu) (mkState (replicate 8 0) 0 0 false).

(** ** Execute *)

(** [static_cast<Opcode>(op)] followed by [switch]: the case whose
    enumerator has the value [op], if there is one. *)
Definition as_Opcode (op : Z) : option Opcode.t :=
  find (fun o => opcode_value o =? op) Opcode.all.

Definition execute (instruction : Z) (cpu : GPRCPU) : GPRCPU :=
  let op := decodeOpcode instruction in
  let rd := decodeRd instruction in
  let rs := decodeRs instruction in
  let imm9 := decodeImm9 instruction in
  match as_Opcode op with
  | Some Opcode.HALT => set_halted true cpu
  | Some Opcode.MOVI =>
      let cpu := set_R rd imm9 cpu in
      setResultFlags (reg rd cpu) cpu
  | Some Opcode.MOV =>
      let cpu := set_R rd (reg rs cpu) cpu in
      setResultFlags (reg rd cpu) cpu
  | Some Opcode.LOAD =>
      let addr := reg rs cpu in
      let cpu := set_R rd (Bus_read (bus cpu) addr) cpu in
      setResultFlags (reg rd cpu) cpu
  | Some Opcode.STORE =>
      let addr := reg rs cpu in
      set_bus (Bus_write (bus cpu) addr (reg rd cpu)) cpu
  | Some Opcode.ADD =>
      let a := reg rd cpu in
      let b := reg rs cpu in
      let result := u16 (a + b) in
      let cpu := set_R rd result cpu in
      setAddFlags a b result cpu
  | Some Opcode.SUB =>
      let a := reg rd cpu in
      let b := reg rs cpu in
      let result := u16 (a - b) in
      let cpu := set_R rd result cpu in
      setSubFlags a b result cpu
  | Some Opcode.AND =>
      let cpu := set_R rd (u16 (Z.land (reg rd cpu) (reg rs cpu))) cpu in
      setResultFlags (reg rd cpu) cpu
  | Some Opcode.OR =>
      let cpu := set_R rd (u16 (Z.lor (reg rd cpu) (reg rs cpu))) cpu in
      setResultFlags (reg rd cpu) cpu
  | Some Opcode.XOR =>
      let cpu := set_R rd (u16 (Z.lxor (reg rd cpu) (reg rs cpu))) cpu in
      setResultFlags (reg rd cpu) cpu
  | Some Opcode.NOT =>
      let cpu := set_R rd (u16 (Z.lnot (reg rs cpu))) cpu in
      setResultFlags (reg rd cpu) cpu
  | Some Opcode.SHL =>
      let val := reg rd cpu in
      let cpu := set_R rd (u16 (Z.shiftl val 1)) cpu in
      let cpu := clear_flags cpu in
      let cpu := or_flag_if (reg rd cpu =? 0) FLAG_ZERO cpu in
      let cpu := or_flag_if (nonzero (Z.land (reg rd cpu) 0x8000)) FLAG_NEGATIVE cpu in
      let cpu := or_flag_if (nonzero (Z.land val 0x8000)) FLAG_CARRY cpu in
      cpu
  | Some Opcode.SHR =>
      let val := reg rd cpu in
      let cpu := set_R rd (u16 (Z.shiftr val 1)) cpu in
      let cpu := clear_flags cpu in
      let cpu := or_flag_if (reg rd cpu =? 0) FLAG_ZERO cpu in
      let cpu := or_flag_if (nonzero (Z.land (reg rd cpu) 0x8000)) FLAG_NEGATIVE cpu in
      let cpu := or_flag_if (nonzero (Z.land val 1)) FLAG_CARRY cpu in
      cpu
  | Some Opcode.JMP => set_PC (reg rs cpu) cpu
  | Some Opcode.JZ =>
      if flag FLAG_ZERO cpu then set_PC (reg rs cpu) cpu else cpu
  | Some Opcode.NOP | None => cpu
  end.

(** ** Fetch-decode-execute (one step) *)

Definition step (cpu : GPRCPU) : GPRCPU * bool :=
  if halted (state cpu) then (cpu, false)
  else
    let instruction := Bus_read (bus cpu) (PC (state cpu)) in
    let cpu := set_PC (u16 (PC (state cpu) + 1)) cpu in
    let cpu := execute instruction cpu in
    (cpu, negb (halted (state cpu))).

(** ** Run (until HALT) *)

(** Conversion to [size_t]. *)
Definition usize (x : Z) : Z := x mod 2 ^ SIZE_BITS.

(** The loop [while (step()) ++cycles;] with a bound on the number of
    iterations: [None] when the bound is reached before [step] returns
    false. *)
Fixpoint run_loop (fuel : nat) (cycles : Z) (cpu : GPRCPU) : option (GPRCPU * Z) :=
  match fuel with
  | O => None
  | S fuel' =>
      let '(cpu', runnable) := step cpu in
      if runnable then run_loop fuel' (usize (cycles + 1)) cpu'
      else Some (cpu', cycles)
  end.

Definition run (fuel : nat) (cpu : GPRCPU) : option (GPRCPU * Z) :=
  run_loop fuel 0 cpu.

(** ** Assumptions on the header *)

(** The three masks are non-empty, fit the [FLAGS] field and share no bit. *)
Definition flag_masks_ok : Prop :=
  (0 < FLAG_ZERO < 2 ^ FLAGS_BITS /\
   0 < FLAG_CARRY < 2 ^ FLAGS_BITS /\
   0 < FLAG_NEGATIVE < 2 ^ FLAGS_BITS) /\
  Z.land FLAG_ZERO FLAG_CARRY = 0 /\
  Z.land FLAG_ZERO FLAG_NEGATIVE = 0 /\
  Z.land FLAG_CARRY FLAG_NEGATIVE = 0.

(** [mask] is one of the three flag masks. *)
Definition is_mask (mask : Z) : Prop :=
  mask = FLAG_ZERO \/ mask = FLAG_CARRY \/ mask = FLAG_NEGATIVE.

(** Distinct enumerators have distinct values (the switch has one case
    label per enumerator). *)
Definition opcode_values_distinct : Prop :=
  forall o o', opcode_value o = opcode_value o' -> o = o'.

(** [w] is an instruction whose opcode field selects the operation [o]. *)
Definition is_instr (o : Opcode.t) (w : Z) : Prop :=
  decodeOpcode w = opcode_value o.

(** The state of the machine after [n] steps. *)
Fixpoint steps (n : nat) (cpu : GPRCPU) : GPRCPU :=
  match n with
  | O => cpu
  | S n' => steps n' (fst (step cpu))
  end.

(** The value of the counter [cycles] after [n] increments from [c]. *)
Fixpoint count_up (n : nat) (c : Z) : Z :=
  match n with
  | O => c
  | S n' => count_up n' (usize (c + 1))
  end.

(** ** Construction of the objects *)

(** [Bus::Bus()]: the array of [MEMORY_SIZE] cells, all set to zero. *)
Definition Bus_new : Bus := mkBus (replicate (Z.to_nat MEMORY_SIZE) 0).

(** [GPRCPU::GPRCPU(Bus&)]: binds the Bus and calls [reset], which assigns
    every member of [state]; what [state] held before is of no effect. *)
Definition GPRCPU_new (b : Bus) : GPRCPU :=
  reset (mkCPU b (mkState [] 0 0 false)).

(** [FLAGS] holds a value of its type. *)
Definition flags_ok (cpu : GPRCPU) : Prop :=
  0 <= FLAGS (state cpu) < 2 ^ FLAGS_BITS.

(** Bit [i] of the flags field belongs to none of the three masks. *)
Definition spare_bit (i : Z) : Prop :=
  Z.testbit FLAG_ZERO i = false /\
  Z.testbit FLAG_CARRY i = false /\
  Z.testbit FLAG_NEGATIVE i = false.

(** No enumerator of [Opcode] has the value of the opcode field of [w]. *)
Definition unknown_opcode (w : Z) : Prop :=
  forall o : Opcode.t, ~ is_instr o w.

(** [cpu'] holds a valid [FLAGS] value that agrees with the one of [cpu]
    on every bit outside the three masks. *)
Definition flags_kept (cpu cpu' : GPRCPU) : Prop :=
  flags_ok cpu' /\
  forall i : Z, 0 <= i -> spare_bit i ->
    Z.testbit (FLAGS (state cpu')) i = Z.testbit (FLAGS (state cpu)) i.

(** The three invariants together. *)
Definition machine_ok (cpu : GPRCPU) : Prop :=
  bus_ok (bus cpu) /\ state_ok (state cpu) /\ flags_ok cpu.

(** ** The driver (main.cpp) *)

(** The bit width of [unsigned long]. *)
Variable ULONG_BITS : Z.

(** [std::stoul (line, nullptr, 0)] on a line that starts with a number:
    a magnitude beyond [unsigned long] throws [std::out_of_range]
    ([None]); otherwise the magnitude is returned, negated within
    [unsigned long] after a minus sign. *)
Definition stoul (negative : bool) (magnitude : N) : option Z :=
  let m := Z.of_N magnitude in
  if m <? 2 ^ ULONG_BITS
  then Some (if negative then (- m) mod 2 ^ ULONG_BITS else m)
  else None.

(** The operand that a non-empty line gives, [None] when [std::stoul]
    throws. *)
Definition operand (l : input_line) : option Z :=
  match l with
  | Number negative magnitude => stoul negative magnitude
  | _ => None
  end.

(** The two optional operand writes of [main].  [None] is the end of the
    program by an exception of [std::stoul], which [main] does not catch.
    An empty first line skips both writes (the second line is not read);
    an empty second line skips the second write. *)
Definition place_operands (b : Bus) (first second : input_line) : option Bus :=
  match first with
  | Empty => Some b
  | _ =>
      match operand first with
      | None => None
      | Some a =>
          let b1 := Bus_write b 0x100 (u16 a) in
          match second with
          | Empty => Some b1
          | _ =>
              match operand second with
              | None => None
              | Some c => Some (Bus_write b1 0x101 (u16 c))
              end
          end
      end
  end.

(** * Properties *)

(** The assumptions on the header under which the instruction semantics
    is studied. *)
Hypothesis masks : flag_masks_ok.
Hypothesis distinct : opcode_values_distinct.

(** ** Bit fields *)

Lemma land_low_mask (x k : Z) :
  0 <= k -> Z.land x (2 ^ k - 1) = x mod 2 ^ k.
Proof.
  intros Hk. rewrite <- Z.land_ones by assumption.
  f_equal. rewrite Z.ones_equiv. lia.
Qed.

Lemma shift_mask_bit_range (w lo k mask hi : Z) :
  0 <= lo -> 0 < k -> mask = 2 ^ k - 1 -> hi = lo + k - 1 ->
  Z.land (Z.shiftr w lo) mask = bit_range w hi lo.
Proof.
  intros Hlo Hk -> ->. unfold bit_range.
  rewrite land_low_mask by lia.
  rewrite Z.shiftr_div_pow2 by assumption.
  do 2 f_equal. lia.
Qed.

Lemma bit_range_bound (w hi lo n : Z) :
  lo <= hi -> 2 ^ (hi - lo + 1) = n -> 0 <= bit_range w hi lo < n.
Proof.
  intros H <-. unfold bit_range. apply Z.mod_pos_bound.
  apply Z.pow_pos_nonneg; lia.
Qed.

Lemma bit_range_testbit (w hi lo i : Z) :
  0 <= lo -> lo <= hi -> 0 <= i ->
  Z.testbit (bit_range w hi lo) i = (i <=? hi - lo) && Z.testbit w (i + lo).
Proof.
  intros Hlo Hhi Hi. unfold bit_range.
  destruct (Z.leb_spec i (hi - lo)) as [Hle | Hgt]; cbn [andb].
  - rewrite Z.mod_pow2_bits_low by lia.
    rewrite Z.div_pow2_bits by lia. reflexivity.
  - apply Z.mod_pow2_bits_high. lia.
Qed.

Lemma bit_range_ext (w w' hi lo : Z) :
  0 <= lo -> lo <= hi ->
  same_bits w w' hi lo -> bit_range w hi lo = bit_range w' hi lo.
Proof.
  intros Hlo Hhi Hsame. apply Z.bits_inj'. intros i Hi.
  rewrite !bit_range_testbit by assumption.
  destruct (Z.leb_spec i (hi - lo)) as [Hle | Hgt]; cbn [andb]; [| reflexivity].
  apply Hsame. lia.
Qed.

Lemma u8_small (x : Z) : 0 <= x < 2 ^ 8 -> u8 x = x.
Proof. intros H. unfold u8. apply Z.mod_small. exact H. Qed.

Lemma u16_small (x : Z) : is_u16 x -> u16 x = x.
Proof. intros H. unfold u16. apply Z.mod_small. exact H. Qed.

Lemma u16_is_u16 (x : Z) : is_u16 (u16 x).
Proof. unfold is_u16, u16. apply Z.mod_pos_bound. lia. Qed.

Lemma decodeOpcode_bits (w : Z) : decodeOpcode w = bit_range w 15 12.
Proof.
  unfold decodeOpcode.
  rewrite (shift_mask_bit_range w 12 4 0xF 15) by (lia || reflexivity).
  apply u8_small. pose proof (bit_range_bound w 15 12 16 ltac:(lia) eq_refl). change (2 ^ 8) with 256. lia.
Qed.

Lemma decodeRd_bits (w : Z) : decodeRd w = bit_range w 11 9.
Proof.
  unfold decodeRd.
  rewrite (shift_mask_bit_range w 9 3 0x7 11) by (lia || reflexivity).
  apply u8_small. pose proof (bit_range_bound w 11 9 8 ltac:(lia) eq_refl). change (2 ^ 8) with 256. lia.
Qed.

Lemma decodeRs_bits (w : Z) : decodeRs w = bit_range w 8 6.
Proof.
  unfold decodeRs.
  rewrite (shift_mask_bit_range w 6 3 0x7 8) by (lia || reflexivity).
  apply u8_small. pose proof (bit_range_bound w 8 6 8 ltac:(lia) eq_refl). change (2 ^ 8) with 256. lia.
Qed.

Lemma decodeImm9_bits (w : Z) : decodeImm9 w = bit_range w 8 0.
Proof.
  unfold decodeImm9.
  rewrite <- (Z.shiftr_0_r w) at 1.
  rewrite (shift_mask_bit_range w 0 9 0x1FF 8) by (lia || reflexivity).
  apply u16_small. pose proof (bit_range_bound w 8 0 512 ltac:(lia) eq_refl). unfold is_u16. change (2 ^ 16) with 65536. lia.
Qed.

Lemma decodeRd_range (w : Z) : 0 <= decodeRd w <= 7.
Proof. rewrite decodeRd_bits. pose proof (bit_range_bound w 11 9 8 ltac:(lia) eq_refl). lia. Qed.

Lemma decodeRs_range (w : Z) : 0 <= decodeRs w <= 7.
Proof. rewrite decodeRs_bits. pose proof (bit_range_bound w 8 6 8 ltac:(lia) eq_refl). lia. Qed.

(** C8: each decode function returns exactly its bit range of the
    instruction word (opcode 15:12, Rd 11:9, Rs 8:6, imm9 8:0); two words
    that agree on a field's bit range decode to the same field value,
    whatever their other bits are; the register indices lie in 0..7. *)
Theorem decode_extracts_bit_ranges (w : Z) :
  (decodeOpcode w = bit_range w 15 12 /\
   decodeRd w = bit_range w 11 9 /\
   decodeRs w = bit_range w 8 6 /\
   decodeImm9 w = bit_range w 8 0) /\
  (forall w' : Z,
     (same_bits w w' 15 12 -> decodeOpcode w' = decodeOpcode w) /\
     (same_bits w w' 11 9 -> decodeRd w' = decodeRd w) /\
     (same_bits w w' 8 6 -> decodeRs w' = decodeRs w) /\
     (same_bits w w' 8 0 -> decodeImm9 w' = decodeImm9 w)) /\
  (0 <= decodeRd w <= 7 /\ 0 <= decodeRs w <= 7).
Proof.
  split; [| split].
  - auto using decodeOpcode_bits, decodeRd_bits, decodeRs_bits, decodeImm9_bits.
  - intros w'.
    rewrite !decodeOpcode_bits, !decodeRd_bits, !decodeRs_bits, !decodeImm9_bits.
    repeat split; intros H; symmetry; apply bit_range_ext; (lia || exact H).
  - split; [apply decodeRd_range | apply decodeRs_range].
Qed.

(** ** Bus *)

Lemma Bus_read_in_range (b : Bus) (address : Z) :
  address < MEMORY_SIZE -> Bus_read b address = memory b !!! Z.to_nat address.
Proof.
  intros H. unfold Bus_read.
  destruct (Z.ltb_spec address MEMORY_SIZE); [reflexivity | lia].
Qed.

Lemma Bus_read_beyond (b : Bus) (address : Z) :
  MEMORY_SIZE <= address -> Bus_read b address = 0.
Proof.
  intros H. unfold Bus_read.
  destruct (Z.ltb_spec address MEMORY_SIZE); [lia | reflexivity].
Qed.

Lemma Bus_write_in_range (b : Bus) (address value : Z) :
  address < MEMORY_SIZE ->
  memory (Bus_write b address value) = <[Z.to_nat address := value]> (memory b).
Proof.
  intros H. unfold Bus_write.
  destruct (Z.ltb_spec address MEMORY_SIZE); [reflexivity | lia].
Qed.

Lemma Bus_write_beyond (b : Bus) (address value : Z) :
  MEMORY_SIZE <= address -> Bus_write b address value = b.
Proof.
  intros H. unfold Bus_write.
  destruct (Z.ltb_spec address MEMORY_SIZE); [lia | reflexivity].
Qed.

Lemma Bus_write_length (b : Bus) (address value : Z) :
  length (memory (Bus_write b address value)) = length (memory b).
Proof.
  unfold Bus_write. destruct (address <? MEMORY_SIZE); [| reflexivity].
  cbn [memory]. apply length_insert.
Qed.

Lemma Bus_read_write_other (b : Bus) (address value a' : Z) :
  0 <= address -> 0 <= a' -> a' <> address ->
  Bus_read (Bus_write b address value) a' = Bus_read b a'.
Proof.
  intros Ha Ha' Hne. unfold Bus_read, Bus_write.
  destruct (address <? MEMORY_SIZE); [| reflexivity].
  destruct (a' <? MEMORY_SIZE); [| reflexivity].
  cbn [memory]. apply list_lookup_total_insert_ne. lia.
Qed.

(** C9: a read within capacity returns the stored cell and a read beyond
    capacity returns 0; a write within capacity stores the value in the
    addressed cell and leaves every other cell as it was; a write beyond
    capacity leaves the Bus as it was, so that no read observes it. *)
Theorem Bus_read_write_contract (b : Bus) (address value : Z) :
  bus_ok b -> is_u16 address ->
  (address < MEMORY_SIZE ->
     memory b !! Z.to_nat address = Some (Bus_read b address)) /\
  (MEMORY_SIZE <= address -> Bus_read b address = 0) /\
  (address < MEMORY_SIZE ->
     Bus_read (Bus_write b address value) address = value /\
     memory (Bus_write b address value) !! Z.to_nat address = Some value /\
     (forall i : nat, i <> Z.to_nat address ->
        memory (Bus_write b address value) !! i = memory b !! i)) /\
  (MEMORY_SIZE <= address ->
     Bus_write b address value = b /\
     (forall a' : Z, Bus_read (Bus_write b address value) a' = Bus_read b a')) /\
  (forall a' : Z, is_u16 a' -> a' <> address ->
     Bus_read (Bus_write b address value) a' = Bus_read b a').
Proof.
  intros [Hlen _] [Ha0 _].
  assert (Hidx : address < MEMORY_SIZE -> (Z.to_nat address < length (memory b))%nat)
    by (rewrite Hlen; lia).
  repeat split.
  - intros Hin. rewrite Bus_read_in_range by assumption.
    apply list_lookup_lookup_total_lt. auto.
  - apply Bus_read_beyond.
  - rewrite Bus_read_in_range, Bus_write_in_range by assumption.
    apply list_lookup_total_insert_eq. auto.
  - rewrite Bus_write_in_range by assumption.
    apply list_lookup_insert_eq. auto.
  - intros i Hi. rewrite Bus_write_in_range by assumption.
    apply list_lookup_insert_ne. congruence.
  - apply Bus_write_beyond. assumption.
  - intros a'. rewrite Bus_write_beyond by assumption. reflexivity.
  - intros a' [Ha' _] Hne. apply Bus_read_write_other; assumption.
Qed.

(** ** Flags *)

Lemma FLAGS_BITS_nonneg : 0 <= FLAGS_BITS.
Proof.
  destruct masks as [[[H0 H1] _] _].
  destruct (Z.lt_ge_cases FLAGS_BITS 0) as [Hneg | ]; [| assumption].
  rewrite Z.pow_neg_r in H1 by assumption. lia.
Qed.

Lemma land_uflags (x mask : Z) :
  0 <= mask < 2 ^ FLAGS_BITS -> Z.land (uflags x) mask = Z.land x mask.
Proof.
  intros Hm. unfold uflags. pose proof FLAGS_BITS_nonneg as Hn.
  rewrite <- Z.land_ones by assumption.
  rewrite <- Z.land_assoc. f_equal.
  rewrite Z.land_comm, Z.land_ones by assumption.
  apply Z.mod_small. assumption.
Qed.

Lemma land_not_masks (x mask : Z) :
  is_mask mask ->
  Z.land (Z.land x (Z.lnot (Z.lor (Z.lor FLAG_ZERO FLAG_CARRY) FLAG_NEGATIVE)))
         mask = 0.
Proof.
  intros Hm. apply Z.bits_inj'. intros i Hi.
  rewrite !Z.land_spec, Z.lnot_spec, !Z.lor_spec, Z.bits_0 by assumption.
  destruct Hm as [-> | [-> | ->]];
    destruct (Z.testbit FLAG_ZERO i), (Z.testbit FLAG_CARRY i),
      (Z.testbit FLAG_NEGATIVE i), (Z.testbit x i); reflexivity.
Qed.

Lemma is_mask_range (mask : Z) : is_mask mask -> 0 < mask < 2 ^ FLAGS_BITS.
Proof.
  destruct masks as [(HZ & HC & HN) _].
  intros [-> | [-> | ->]]; assumption.
Qed.

Lemma masks_disjoint (m m' : Z) :
  is_mask m -> is_mask m' -> m <> m' -> Z.land m m' = 0.
Proof.
  destruct masks as [_ (HZC & HZN & HCN)].
  intros [-> | [-> | ->]] [-> | [-> | ->]] Hne;
    try congruence; rewrite Z.land_comm; assumption.
Qed.

Lemma flag_clear_flags (mask : Z) (cpu : GPRCPU) :
  is_mask mask -> flag mask (clear_flags cpu) = false.
Proof.
  intros Hm. unfold flag, clear_flags, nonzero; cbn.
  rewrite land_uflags by (pose proof (is_mask_range _ Hm); lia).
  rewrite land_not_masks by exact Hm. reflexivity.
Qed.

Lemma flag_or_flag_if_same (c : bool) (mask : Z) (cpu : GPRCPU) :
  is_mask mask -> flag mask (or_flag_if c mask cpu) = c || flag mask cpu.
Proof.
  intros Hm. pose proof (is_mask_range _ Hm) as Hr.
  destruct c; cbn [or_flag_if orb]; [| reflexivity].
  unfold flag, nonzero; cbn.
  rewrite land_uflags by lia.
  rewrite Z.land_lor_distr_l, Z.land_diag.
  destruct (Z.eqb_spec (Z.lor (Z.land (FLAGS (state cpu)) mask) mask) 0) as [E |];
    [| reflexivity].
  apply Z.lor_eq_0_iff in E. lia.
Qed.

Lemma flag_or_flag_if_other (c : bool) (m mask : Z) (cpu : GPRCPU) :
  is_mask m -> is_mask mask -> m <> mask ->
  flag mask (or_flag_if c m cpu) = flag mask cpu.
Proof.
  intros Hm Hmask Hne. pose proof (is_mask_range _ Hmask) as Hr.
  destruct c; cbn [or_flag_if]; [| reflexivity].
  unfold flag, nonzero; cbn.
  rewrite land_uflags by lia.
  rewrite Z.land_lor_distr_l, (masks_disjoint m mask) by assumption.
  rewrite Z.lor_0_r. reflexivity.
Qed.

Lemma masks_distinct :
  FLAG_ZERO <> FLAG_CARRY /\ FLAG_ZERO <> FLAG_NEGATIVE /\
  FLAG_CARRY <> FLAG_NEGATIVE.
Proof.
  destruct masks as [(HZ & HC & HN) (HZC & HZN & HCN)].
  repeat split; intros E; rewrite E, Z.land_diag in *; lia.
Qed.

Lemma is_mask_ZERO : is_mask FLAG_ZERO.
Proof. left. reflexivity. Qed.

Lemma is_mask_CARRY : is_mask FLAG_CARRY.
Proof. right. left. reflexivity. Qed.

Lemma is_mask_NEGATIVE : is_mask FLAG_NEGATIVE.
Proof. right. right. reflexivity. Qed.

(** Rewrites a flag test through the updates made by one instruction. *)
Ltac flag_tests :=
  pose proof masks_distinct as (?HZC & ?HZN & ?HCN);
  repeat first
    [ rewrite flag_or_flag_if_same
        by first [apply is_mask_ZERO | apply is_mask_CARRY | apply is_mask_NEGATIVE]
    | rewrite flag_or_flag_if_other
        by first [apply is_mask_ZERO | apply is_mask_CARRY | apply is_mask_NEGATIVE
                 | congruence]
    | rewrite flag_clear_flags
        by first [apply is_mask_ZERO | apply is_mask_CARRY | apply is_mask_NEGATIVE] ];
  rewrite ?orb_false_r.

Lemma setResultFlags_flags (result : Z) (cpu : GPRCPU) :
  flag FLAG_ZERO (setResultFlags result cpu) = (result =? 0) /\
  flag FLAG_NEGATIVE (setResultFlags result cpu) = nonzero (Z.land result 0x8000) /\
  flag FLAG_CARRY (setResultFlags result cpu) = false.
Proof. unfold setResultFlags. repeat split; flag_tests; reflexivity. Qed.

Lemma setAddFlags_flags (a b result : Z) (cpu : GPRCPU) :
  flag FLAG_ZERO (setAddFlags a b result cpu) = (result =? 0) /\
  flag FLAG_NEGATIVE (setAddFlags a b result cpu) = nonzero (Z.land result 0x8000) /\
  flag FLAG_CARRY (setAddFlags a b result cpu) = (a + b >? 0xFFFF).
Proof. unfold setAddFlags. repeat split; flag_tests; reflexivity. Qed.

Lemma setSubFlags_flags (a b result : Z) (cpu : GPRCPU) :
  flag FLAG_ZERO (setSubFlags a b result cpu) = (result =? 0) /\
  flag FLAG_NEGATIVE (setSubFlags a b result cpu) = nonzero (Z.land result 0x8000) /\
  flag FLAG_CARRY (setSubFlags a b result cpu) = (a >=? b).
Proof. unfold setSubFlags. repeat split; flag_tests; reflexivity. Qed.

(** Flag updates change nothing but [FLAGS]. *)

Lemma clear_flags_frame (cpu : GPRCPU) :
  exists f, clear_flags cpu = set_FLAGS f cpu.
Proof. eexists. reflexivity. Qed.

Lemma set_FLAGS_twice (f f' : Z) (cpu : GPRCPU) :
  set_FLAGS f (set_FLAGS f' cpu) = set_FLAGS f cpu.
Proof. reflexivity. Qed.

Lemma or_flag_if_frame (c : bool) (mask f : Z) (cpu : GPRCPU) :
  exists f', or_flag_if c mask (set_FLAGS f cpu) = set_FLAGS f' cpu.
Proof. destruct c; eexists; reflexivity. Qed.

Lemma setResultFlags_frame (result : Z) (cpu : GPRCPU) :
  exists f, setResultFlags result cpu = set_FLAGS f cpu.
Proof.
  unfold setResultFlags.
  destruct (clear_flags_frame cpu) as [f0 ->].
  destruct (or_flag_if_frame (result =? 0) FLAG_ZERO f0 cpu) as [f1 ->].
  apply or_flag_if_frame.
Qed.

Lemma setAddFlags_frame (a b result : Z) (cpu : GPRCPU) :
  exists f, setAddFlags a b result cpu = set_FLAGS f cpu.
Proof.
  unfold setAddFlags.
  destruct (clear_flags_frame cpu) as [f0 ->].
  destruct (or_flag_if_frame (result =? 0) FLAG_ZERO f0 cpu) as [f1 ->].
  destruct (or_flag_if_frame (nonzero (Z.land result 0x8000)) FLAG_NEGATIVE f1 cpu)
    as [f2 ->].
  apply or_flag_if_frame.
Qed.

Lemma setSubFlags_frame (a b result : Z) (cpu : GPRCPU) :
  exists f, setSubFlags a b result cpu = set_FLAGS f cpu.
Proof.
  unfold setSubFlags.
  destruct (clear_flags_frame cpu) as [f0 ->].
  destruct (or_flag_if_frame (result =? 0) FLAG_ZERO f0 cpu) as [f1 ->].
  destruct (or_flag_if_frame (nonzero (Z.land result 0x8000)) FLAG_NEGATIVE f1 cpu)
    as [f2 ->].
  apply or_flag_if_frame.
Qed.

(** ** Register file *)

Lemma reg_set_FLAGS (i f : Z) (cpu : GPRCPU) : reg i (set_FLAGS f cpu) = reg i cpu.
Proof. reflexivity. Qed.

Lemma reg_set_R_same (i v : Z) (cpu : GPRCPU) :
  length (R (state cpu)) = 8%nat -> 0 <= i <= 7 -> reg i (set_R i v cpu) = v.
Proof.
  intros Hlen Hi. unfold reg, set_R; cbn.
  apply list_lookup_total_insert_eq. lia.
Qed.

Lemma reg_set_R_other (i j v : Z) (cpu : GPRCPU) :
  0 <= i -> 0 <= j -> i <> j -> reg j (set_R i v cpu) = reg j cpu.
Proof.
  intros Hi Hj Hne. unfold reg, set_R; cbn.
  apply list_lookup_total_insert_ne. lia.
Qed.

Lemma reg_is_u16 (i : Z) (cpu : GPRCPU) :
  state_ok (state cpu) -> 0 <= i <= 7 -> is_u16 (reg i cpu).
Proof.
  intros (Hlen & Hall & _) Hi. unfold reg.
  apply (Forall_lookup_total_1 is_u16); [exact Hall | lia].
Qed.

Lemma reg_clear_flags (i : Z) (cpu : GPRCPU) : reg i (clear_flags cpu) = reg i cpu.
Proof. reflexivity. Qed.

Lemma reg_or_flag_if (i : Z) (c : bool) (mask : Z) (cpu : GPRCPU) :
  reg i (or_flag_if c mask cpu) = reg i cpu.
Proof. destruct c; reflexivity. Qed.

(** ** Dispatch *)

Lemma as_Opcode_sound (op : Z) (o : Opcode.t) :
  as_Opcode op = Some o -> opcode_value o = op.
Proof.
  unfold as_Opcode. intros H. apply find_some in H as [_ H].
  apply Z.eqb_eq. exact H.
Qed.

Lemma as_Opcode_value (o : Opcode.t) : as_Opcode (opcode_value o) = Some o.
Proof.
  destruct (as_Opcode (opcode_value o)) as [o' |] eqn:E.
  - apply as_Opcode_sound, distinct in E. congruence.
  - unfold as_Opcode in E.
    assert (Hin : In o Opcode.all) by (destruct o; cbn; tauto).
    pose proof (find_none _ _ E o Hin) as Hf. cbn beta in Hf.
    rewrite Z.eqb_refl in Hf. discriminate.
Qed.

Lemma is_instr_as_Opcode (o : Opcode.t) (w : Z) :
  is_instr o w -> as_Opcode (decodeOpcode w) = Some o.
Proof. intros Hw. rewrite Hw. apply as_Opcode_value. Qed.

Lemma as_Opcode_is_instr (o : Opcode.t) (w : Z) :
  as_Opcode (decodeOpcode w) = Some o -> is_instr o w.
Proof. intros H. apply as_Opcode_sound in H. symmetry. exact H. Qed.

(** ** Single bits *)

Lemma land_pow2_testbit (x k : Z) :
  0 <= k -> nonzero (Z.land x (2 ^ k)) = Z.testbit x k.
Proof.
  intros Hk. unfold nonzero.
  destruct (Z.testbit x k) eqn:Hb.
  - destruct (Z.eqb_spec (Z.land x (2 ^ k)) 0) as [E |]; [| reflexivity].
    assert (Hc : Z.testbit (Z.land x (2 ^ k)) k = true)
      by (rewrite Z.land_spec, Hb, Z.pow2_bits_true by assumption; reflexivity).
    rewrite E, Z.bits_0 in Hc. discriminate.
  - replace (Z.land x (2 ^ k)) with 0; [reflexivity |].
    symmetry. apply Z.bits_inj'. intros i Hi.
    rewrite Z.land_spec, Z.bits_0, Z.pow2_bits_eqb by assumption.
    destruct (Z.eqb_spec k i) as [<- |]; [rewrite Hb |]; cbn;
      [reflexivity | apply andb_false_r].
Qed.

Lemma bit15_test (x : Z) : nonzero (Z.land x 0x8000) = Z.testbit x 15.
Proof. apply (land_pow2_testbit x 15). lia. Qed.

Lemma bit0_test (x : Z) : nonzero (Z.land x 1) = Z.testbit x 0.
Proof. apply (land_pow2_testbit x 0). lia. Qed.

(** ** Arithmetic and shift instructions *)

Lemma execute_ADD_eq (w : Z) (cpu : GPRCPU) :
  is_instr Opcode.ADD w ->
  execute w cpu =
  let a := reg (decodeRd w) cpu in
  let b := reg (decodeRs w) cpu in
  setAddFlags a b (u16 (a + b)) (set_R (decodeRd w) (u16 (a + b)) cpu).
Proof.
  intros H. unfold execute. rewrite (is_instr_as_Opcode _ _ H). reflexivity.
Qed.

Lemma execute_SUB_eq (w : Z) (cpu : GPRCPU) :
  is_instr Opcode.SUB w ->
  execute w cpu =
  let a := reg (decodeRd w) cpu in
  let b := reg (decodeRs w) cpu in
  setSubFlags a b (u16 (a - b)) (set_R (decodeRd w) (u16 (a - b)) cpu).
Proof.
  intros H. unfold execute. rewrite (is_instr_as_Opcode _ _ H). reflexivity.
Qed.

(** C1: ADD leaves (a + b) mod 65536 in Rd, where a and b are the values
    of Rd and Rs before the instruction; afterwards ZERO is set iff that
    result is 0, NEGATIVE iff its bit 15 is set, CARRY iff a + b exceeds
    65535.  With a = 0xFFFF and b = 0x0001 the result is 0, ZERO and CARRY
    are set and NEGATIVE is clear. *)
Theorem ADD_semantics (w : Z) (cpu : GPRCPU) :
  state_ok (state cpu) ->
  is_instr Opcode.ADD w ->
  let a := reg (decodeRd w) cpu in
  let b := reg (decodeRs w) cpu in
  let cpu' := execute w cpu in
  reg (decodeRd w) cpu' = (a + b) mod 65536 /\
  (flag FLAG_ZERO cpu' = true <-> (a + b) mod 65536 = 0) /\
  (flag FLAG_NEGATIVE cpu' = true <-> Z.testbit ((a + b) mod 65536) 15 = true) /\
  (flag FLAG_CARRY cpu' = true <-> 65535 < a + b) /\
  (a = 0xFFFF -> b = 0x0001 ->
   reg (decodeRd w) cpu' = 0x0000 /\
   flag FLAG_ZERO cpu' = true /\
   flag FLAG_CARRY cpu' = true /\
   flag FLAG_NEGATIVE cpu' = false).
Proof.
  intros Hok Hw a b cpu'.
  assert (Hreg : reg (decodeRd w) cpu' = u16 (a + b)).
  { subst cpu'. rewrite execute_ADD_eq by assumption. cbv zeta.
    match goal with
    | |- context [setAddFlags ?x ?y ?r ?c] =>
        destruct (setAddFlags_frame x y r c) as [f ->]
    end.
    rewrite reg_set_FLAGS. apply reg_set_R_same; [apply Hok | apply decodeRd_range]. }
  assert (Hfl : flag FLAG_ZERO cpu' = (u16 (a + b) =? 0) /\
                flag FLAG_NEGATIVE cpu' = Z.testbit (u16 (a + b)) 15 /\
                flag FLAG_CARRY cpu' = (a + b >? 0xFFFF)).
  { subst cpu'. rewrite execute_ADD_eq by assumption. cbv zeta.
    rewrite <- bit15_test. apply setAddFlags_flags. }
  destruct Hfl as (HZ & HN & HC).
  change (u16 (a + b)) with ((a + b) mod 65536) in *.
  split; [exact Hreg |].
  split; [rewrite HZ; apply Z.eqb_eq |].
  split; [rewrite HN; reflexivity |].
  split; [rewrite HC; apply Z.gtb_lt |].
  intros Ea Eb. rewrite Hreg, HZ, HN, HC, Ea, Eb. repeat split.
Qed.

(** C2: SUB leaves (a - b) mod 65536 in Rd, where a and b are the values
    of Rd and Rs before the instruction; afterwards ZERO is set iff that
    result is 0, NEGATIVE iff its bit 15 is set, CARRY iff a >= b (no
    borrow).  Operands (5, 5) give 0 with ZERO and CARRY set; operands
    (0, 1) give 0xFFFF with CARRY clear. *)
Theorem SUB_semantics (w : Z) (cpu : GPRCPU) :
  state_ok (state cpu) ->
  is_instr Opcode.SUB w ->
  let a := reg (decodeRd w) cpu in
  let b := reg (decodeRs w) cpu in
  let cpu' := execute w cpu in
  reg (decodeRd w) cpu' = (a - b) mod 65536 /\
  (flag FLAG_ZERO cpu' = true <-> (a - b) mod 65536 = 0) /\
  (flag FLAG_NEGATIVE cpu' = true <-> Z.testbit ((a - b) mod 65536) 15 = true) /\
  (flag FLAG_CARRY cpu' = true <-> a >= b) /\
  (a = 5 -> b = 5 ->
   reg (decodeRd w) cpu' = 0 /\
   flag FLAG_ZERO cpu' = true /\
   flag FLAG_CARRY cpu' = true) /\
  (a = 0 -> b = 1 ->
   reg (decodeRd w) cpu' = 0xFFFF /\
   flag FLAG_CARRY cpu' = false).
Proof.
  intros Hok Hw a b cpu'.
  assert (Hreg : reg (decodeRd w) cpu' = u16 (a - b)).
  { subst cpu'. rewrite execute_SUB_eq by assumption. cbv zeta.
    match goal with
    | |- context [setSubFlags ?x ?y ?r ?c] =>
        destruct (setSubFlags_frame x y r c) as [f ->]
    end.
    rewrite reg_set_FLAGS. apply reg_set_R_same; [apply Hok | apply decodeRd_range]. }
  assert (Hfl : flag FLAG_ZERO cpu' = (u16 (a - b) =? 0) /\
                flag FLAG_NEGATIVE cpu' = Z.testbit (u16 (a - b)) 15 /\
                flag FLAG_CARRY cpu' = (a >=? b)).
  { subst cpu'. rewrite execute_SUB_eq by assumption. cbv zeta.
    rewrite <- bit15_test. apply setSubFlags_flags. }
  destruct Hfl as (HZ & HN & HC).
  change (u16 (a - b)) with ((a - b) mod 65536) in *.
  split; [exact Hreg |].
  split; [rewrite HZ; apply Z.eqb_eq |].
  split; [rewrite HN; reflexivity |].
  split; [rewrite HC, Z.geb_le; lia |].
  split; intros Ea Eb; rewrite Hreg, ?HZ, HC, Ea, Eb; repeat split.
Qed.

Lemma execute_SHL_eq (w : Z) (cpu : GPRCPU) :
  is_instr Opcode.SHL w ->
  execute w cpu =
  let rd := decodeRd w in
  let val := reg rd cpu in
  let cpu := set_R rd (u16 (Z.shiftl val 1)) cpu in
  let cpu := clear_flags cpu in
  let cpu := or_flag_if (reg rd cpu =? 0) FLAG_ZERO cpu in
  let cpu := or_flag_if (nonzero (Z.land (reg rd cpu) 0x8000)) FLAG_NEGATIVE cpu in
  or_flag_if (nonzero (Z.land val 0x8000)) FLAG_CARRY cpu.
Proof.
  intros H. unfold execute. rewrite (is_instr_as_Opcode _ _ H). reflexivity.
Qed.

Lemma execute_SHR_eq (w : Z) (cpu : GPRCPU) :
  is_instr Opcode.SHR w ->
  execute w cpu =
  let rd := decodeRd w in
  let val := reg rd cpu in
  let cpu := set_R rd (u16 (Z.shiftr val 1)) cpu in
  let cpu := clear_flags cpu in
  let cpu := or_flag_if (reg rd cpu =? 0) FLAG_ZERO cpu in
  let cpu := or_flag_if (nonzero (Z.land (reg rd cpu) 0x8000)) FLAG_NEGATIVE cpu in
  or_flag_if (nonzero (Z.land val 1)) FLAG_CARRY cpu.
Proof.
  intros H. unfold execute. rewrite (is_instr_as_Opcode _ _ H). reflexivity.
Qed.

(** What a shift leaves in Rd and in the three flags, for the value
    [r] written to Rd and the condition [c] that selects CARRY. *)
Lemma shift_effect (rd r : Z) (c : bool) (cpu cpu' : GPRCPU) :
  state_ok (state cpu) -> 0 <= rd <= 7 ->
  cpu' =
    (let cpu1 := clear_flags (set_R rd r cpu) in
     let cpu2 := or_flag_if (reg rd cpu1 =? 0) FLAG_ZERO cpu1 in
     let cpu3 := or_flag_if (nonzero (Z.land (reg rd cpu2) 0x8000)) FLAG_NEGATIVE cpu2 in
     or_flag_if c FLAG_CARRY cpu3) ->
  reg rd cpu' = r /\
  flag FLAG_ZERO cpu' = (r =? 0) /\
  flag FLAG_NEGATIVE cpu' = Z.testbit r 15 /\
  flag FLAG_CARRY cpu' = c.
Proof.
  intros Hok Hrd ->.
  set (cpu1 := clear_flags (set_R rd r cpu)).
  set (cpu2 := or_flag_if (reg rd cpu1 =? 0) FLAG_ZERO cpu1).
  cbv zeta. fold cpu1. fold cpu2.
  assert (H1 : reg rd cpu1 = r).
  { subst cpu1. rewrite reg_clear_flags. apply reg_set_R_same; [apply Hok | exact Hrd]. }
  assert (H2 : reg rd cpu2 = r).
  { subst cpu2. rewrite reg_or_flag_if. exact H1. }
  rewrite H2. subst cpu2. rewrite H1.
  rewrite !reg_or_flag_if, H1, <- bit15_test.
  repeat split; subst cpu1; flag_tests; reflexivity.
Qed.

(** C5: SHL leaves (v shifted left by 1) mod 65536 in Rd with CARRY equal
    to bit 15 of v; SHR leaves v shifted right by 1 in Rd, with bit 15
    filled by zero, and CARRY equal to bit 0 of v; v is the value of Rd
    before the instruction.  Both set ZERO iff the result is 0 and NEGATIVE
    iff bit 15 of the result is set.  SHL on 0x8000 and SHR on 0x0001 both
    give 0x0000 with CARRY and ZERO set. *)
Theorem SHL_SHR_semantics (w : Z) (cpu : GPRCPU) :
  state_ok (state cpu) ->
  let v := reg (decodeRd w) cpu in
  let cpu' := execute w cpu in
  let result := reg (decodeRd w) cpu' in
  (is_instr Opcode.SHL w ->
     result = Z.shiftl v 1 mod 65536 /\
     flag FLAG_CARRY cpu' = Z.testbit v 15 /\
     (flag FLAG_ZERO cpu' = true <-> result = 0) /\
     flag FLAG_NEGATIVE cpu' = Z.testbit result 15 /\
     (v = 0x8000 ->
        result = 0x0000 /\ flag FLAG_CARRY cpu' = true /\ flag FLAG_ZERO cpu' = true)) /\
  (is_instr Opcode.SHR w ->
     result = Z.shiftr v 1 /\
     Z.testbit result 15 = false /\
     flag FLAG_CARRY cpu' = Z.testbit v 0 /\
     (flag FLAG_ZERO cpu' = true <-> result = 0) /\
     flag FLAG_NEGATIVE cpu' = Z.testbit result 15 /\
     (v = 0x0001 ->
        result = 0x0000 /\ flag FLAG_CARRY cpu' = true /\ flag FLAG_ZERO cpu' = true)).
Proof.
  intros Hok v cpu' result. split; intros Hw.
  - destruct (shift_effect (decodeRd w) (u16 (Z.shiftl v 1))
                (nonzero (Z.land v 0x8000)) cpu cpu' Hok (decodeRd_range w)
                (execute_SHL_eq w cpu Hw)) as (Hr & HZ & HN & HC).
    fold result in Hr.
    rewrite bit15_test in HC. rewrite <- Hr in HZ, HN.
    change (u16 (Z.shiftl v 1)) with (Z.shiftl v 1 mod 65536) in Hr.
    split; [exact Hr |]. split; [exact HC |].
    split; [rewrite HZ; apply Z.eqb_eq |]. split; [exact HN |].
    intros Ev. rewrite HZ, HC, Hr, Ev. repeat split.
  - destruct (shift_effect (decodeRd w) (u16 (Z.shiftr v 1))
                (nonzero (Z.land v 1)) cpu cpu' Hok (decodeRd_range w)
                (execute_SHR_eq w cpu Hw)) as (Hr & HZ & HN & HC).
    fold result in Hr.
    rewrite bit0_test in HC. rewrite <- Hr in HZ, HN.
    assert (Hv : is_u16 v) by (apply reg_is_u16; [exact Hok | apply decodeRd_range]).
    assert (Hhalf : 0 <= Z.shiftr v 1 < 2 ^ 15).
    { rewrite Z.shiftr_div_pow2 by lia. unfold is_u16 in Hv.
      change (2 ^ 16) with 65536 in Hv. change (2 ^ 1) with 2.
      change (2 ^ 15) with 32768. split.
      - apply Z.div_pos; lia.
      - apply Z.div_lt_upper_bound; lia. }
    rewrite u16_small in Hr
      by (unfold is_u16; change (2 ^ 16) with 65536; change (2 ^ 15) with 32768 in Hhalf; lia).
    assert (Hhi : Z.testbit result 15 = false).
    { rewrite Hr, <- (Z.mod_small _ _ Hhalf). apply Z.mod_pow2_bits_high. lia. }
    split; [exact Hr |]. split; [exact Hhi |]. split; [exact HC |].
    split; [rewrite HZ; apply Z.eqb_eq |]. split; [exact HN |].
    intros Ev. rewrite HZ, HC, Hr, Ev. repeat split.
Qed.

(** ** What [execute] leaves alone *)

(** Closes a goal that compares a component other than FLAGS before and
    after a chain of flag updates. *)
Ltac flags_frame :=
  cbv zeta; unfold setResultFlags, setAddFlags, setSubFlags, or_flag_if;
  repeat match goal with
         | |- context [if ?c then _ else _] => destruct c
         end;
  reflexivity.

Lemma execute_halted (w : Z) (cpu : GPRCPU) :
  halted (state (execute w cpu)) =
  match as_Opcode (decodeOpcode w) with
  | Some Opcode.HALT => true
  | _ => halted (state cpu)
  end.
Proof. unfold execute. destruct (as_Opcode (decodeOpcode w)) as [[] |]; flags_frame. Qed.

Lemma execute_bus (w : Z) (cpu : GPRCPU) :
  bus (execute w cpu) =
  match as_Opcode (decodeOpcode w) with
  | Some Opcode.STORE =>
      Bus_write (bus cpu) (reg (decodeRs w) cpu) (reg (decodeRd w) cpu)
  | _ => bus cpu
  end.
Proof. unfold execute. destruct (as_Opcode (decodeOpcode w)) as [[] |]; flags_frame. Qed.

Lemma execute_JMP_eq (w : Z) (cpu : GPRCPU) :
  is_instr Opcode.JMP w -> execute w cpu = set_PC (reg (decodeRs w) cpu) cpu.
Proof.
  intros H. unfold execute. rewrite (is_instr_as_Opcode _ _ H). reflexivity.
Qed.

Lemma execute_JZ_eq (w : Z) (cpu : GPRCPU) :
  is_instr Opcode.JZ w ->
  execute w cpu =
  if flag FLAG_ZERO cpu then set_PC (reg (decodeRs w) cpu) cpu else cpu.
Proof.
  intros H. unfold execute. rewrite (is_instr_as_Opcode _ _ H). reflexivity.
Qed.

Lemma step_not_halted (cpu : GPRCPU) :
  halted (state cpu) = false ->
  step cpu =
  let cpu' := execute (Bus_read (bus cpu) (PC (state cpu)))
                      (set_PC (u16 (PC (state cpu) + 1)) cpu) in
  (cpu', negb (halted (state cpu'))).
Proof. intros H. unfold step. rewrite H. reflexivity. Qed.

(** ** Single step *)

Lemma step_halted (cpu : GPRCPU) :
  halted (state cpu) = true -> step cpu = (cpu, false).
Proof. intros Hh. unfold step. rewrite Hh. reflexivity. Qed.

Lemma runnable_iff_not_HALT (cpu : GPRCPU) :
  halted (state cpu) = false ->
  (snd (step cpu) = true <->
   ~ is_instr Opcode.HALT (Bus_read (bus cpu) (PC (state cpu)))).
Proof.
  intros Hh. rewrite step_not_halted by assumption. cbn [snd].
  rewrite execute_halted. cbn [halted state set_PC].
  set (w := Bus_read (bus cpu) (PC (state cpu))).
  destruct (as_Opcode (decodeOpcode w)) as [o |] eqn:E.
  - apply as_Opcode_is_instr in E.
    assert (Hcase : o = Opcode.HALT \/ o <> Opcode.HALT)
      by (destruct o; (left; reflexivity) || (right; discriminate)).
    destruct Hcase as [-> | Hne].
    + split; [discriminate | intros Hn; contradiction].
    + replace (match o with Opcode.HALT => true | _ => halted (state cpu) end)
        with false by (rewrite Hh; destruct o; congruence).
      split; [| reflexivity].
      intros _ Hhalt. apply Hne, distinct. unfold is_instr in *. congruence.
  - rewrite Hh. split; [| reflexivity].
    intros _ Hhalt. apply is_instr_as_Opcode in Hhalt. congruence.
Qed.

Lemma runnable_then_not_halted (cpu : GPRCPU) :
  snd (step cpu) = true -> halted (state (fst (step cpu))) = false.
Proof.
  unfold step. destruct (halted (state cpu)); cbn [fst snd]; [discriminate |].
  intros H. apply negb_true_iff. exact H.
Qed.

(** C3: a step taken while halted returns the machine as it was (which
    holds whatever the memory contains: nothing is fetched) and reports
    not runnable; a step taken while not halted reports runnable iff the
    instruction word it fetched and executed is not a HALT. *)
Theorem step_reports_runnable (cpu : GPRCPU) :
  (halted (state cpu) = true -> step cpu = (cpu, false)) /\
  (halted (state cpu) = false ->
     (snd (step cpu) = true <->
      ~ is_instr Opcode.HALT (Bus_read (bus cpu) (PC (state cpu))))).
Proof. split; [apply step_halted | apply runnable_iff_not_HALT]. Qed.

(** C4: a step taken while not halted executes the word read from the Bus
    at the current PC, on the state in which PC has already been advanced
    by one (the increment of the 16-bit PC: PC + 1 below 0xFFFF, and 0
    after 0xFFFF).  If that word is a JMP, PC ends as the
    value of Rs.  If it is a JZ and ZERO is set, PC ends as the value of
    Rs; if ZERO is clear, the step changes nothing but PC, which is left
    at the fetch address plus one. *)
Theorem step_fetch_advance_jump (cpu : GPRCPU) :
  halted (state cpu) = false ->
  let pc := PC (state cpu) in
  let w := Bus_read (bus cpu) pc in
  let advanced := set_PC ((pc + 1) mod 65536) cpu in
  let cpu' := fst (step cpu) in
  cpu' = execute w advanced /\
  (pc < 65535 -> is_u16 pc -> PC (state advanced) = pc + 1) /\
  (is_instr Opcode.JMP w ->
     PC (state cpu') = reg (decodeRs w) cpu /\
     cpu' = set_PC (reg (decodeRs w) cpu) cpu) /\
  (is_instr Opcode.JZ w -> flag FLAG_ZERO cpu = true ->
     PC (state cpu') = reg (decodeRs w) cpu /\
     cpu' = set_PC (reg (decodeRs w) cpu) cpu) /\
  (is_instr Opcode.JZ w -> flag FLAG_ZERO cpu = false ->
     PC (state cpu') = (pc + 1) mod 65536 /\
     cpu' = advanced).
Proof.
  intros Hh pc w advanced cpu'.
  assert (E : cpu' = execute w advanced).
  { subst cpu'. rewrite step_not_halted by assumption. reflexivity. }
  split; [exact E |].
  split.
  { intros Hlt [H0 _]. cbn. apply Z.mod_small. lia. }
  split; [| split]; intros Hw.
  - rewrite E, execute_JMP_eq by assumption. split; reflexivity.
  - intros HZ. rewrite E, execute_JZ_eq by assumption.
    change (flag FLAG_ZERO advanced) with (flag FLAG_ZERO cpu). rewrite HZ.
    split; reflexivity.
  - intros HZ. rewrite E, execute_JZ_eq by assumption.
    change (flag FLAG_ZERO advanced) with (flag FLAG_ZERO cpu). rewrite HZ.
    split; reflexivity.
Qed.

(** C10: an instruction that is not a STORE leaves the Bus as it was,
    for [execute] on any instruction word and hence for a whole step; a
    step that executes a STORE performs the single write of the value of
    Rd at the address held in Rs: every other cell keeps its content, and
    the addressed cell (within capacity, which is always the case when the
    capacity covers the 16-bit address space) holds the value of Rd. *)
Theorem memory_written_only_by_STORE (cpu : GPRCPU) :
  bus_ok (bus cpu) -> state_ok (state cpu) ->
  let w := Bus_read (bus cpu) (PC (state cpu)) in
  let cpu' := fst (step cpu) in
  (forall (w0 : Z) (cpu0 : GPRCPU),
     ~ is_instr Opcode.STORE w0 -> bus (execute w0 cpu0) = bus cpu0) /\
  (~ is_instr Opcode.STORE w -> bus cpu' = bus cpu) /\
  (halted (state cpu) = false -> is_instr Opcode.STORE w ->
     let addr := reg (decodeRs w) cpu in
     let value := reg (decodeRd w) cpu in
     bus cpu' = Bus_write (bus cpu) addr value /\
     (forall i : nat, i <> Z.to_nat addr ->
        memory (bus cpu') !! i = memory (bus cpu) !! i) /\
     (addr < MEMORY_SIZE -> memory (bus cpu') !! Z.to_nat addr = Some value) /\
     (2 ^ 16 <= MEMORY_SIZE -> memory (bus cpu') !! Z.to_nat addr = Some value)).
Proof.
  intros Hbus Hok w cpu'.
  assert (Hexec : forall (w0 : Z) (cpu0 : GPRCPU),
            ~ is_instr Opcode.STORE w0 -> bus (execute w0 cpu0) = bus cpu0).
  { intros w0 cpu0 Hn. rewrite execute_bus.
    destruct (as_Opcode (decodeOpcode w0)) as [o |] eqn:E; [| reflexivity].
    apply as_Opcode_is_instr in E. destruct o; try reflexivity. contradiction. }
  split; [exact Hexec |]. split.
  - intros Hn. subst cpu'. unfold step.
    destruct (halted (state cpu)); [reflexivity |].
    cbn [fst]. rewrite Hexec by exact Hn. reflexivity.
  - intros Hh Hw addr value.
    assert (E : bus cpu' = Bus_write (bus cpu) addr value).
    { subst cpu'. rewrite step_not_halted by assumption. cbn [fst]. fold w.
      rewrite execute_bus, (is_instr_as_Opcode _ _ Hw). reflexivity. }
    assert (Haddr : is_u16 addr) by (apply reg_is_u16; [exact Hok | apply decodeRs_range]).
    assert (Hin : addr < MEMORY_SIZE ->
              memory (bus cpu') !! Z.to_nat addr = Some value).
    { intros Hlt. rewrite E, Bus_write_in_range by assumption.
      apply list_lookup_insert_eq. destruct Hbus as [-> _]. unfold is_u16 in Haddr. lia. }
    split; [exact E |]. split; [| split].
    + intros i Hi. rewrite E. unfold Bus_write.
      destruct (addr <? MEMORY_SIZE); [| reflexivity].
      cbn [memory]. apply list_lookup_insert_ne. congruence.
    + exact Hin.
    + intros Hcap. apply Hin. unfold is_u16 in Haddr. lia.
Qed.

(** ** Run *)

Lemma count_up_exact (n : nat) (c : Z) :
  0 <= c -> c + Z.of_nat n < 2 ^ SIZE_BITS -> count_up n c = c + Z.of_nat n.
Proof.
  revert c. induction n as [| n IH]; intros c Hc Hlt; cbn [count_up].
  - lia.
  - assert (E : usize (c + 1) = c + 1) by (unfold usize; apply Z.mod_small; lia).
    rewrite E, IH by lia. lia.
Qed.

Lemma run_loop_spec (fuel : nat) (c : Z) (cpu cpu' : GPRCPU) (c' : Z) :
  run_loop fuel c cpu = Some (cpu', c') <->
  exists n : nat,
    (n < fuel)%nat /\
    (forall i : nat, (i < n)%nat -> snd (step (steps i cpu)) = true) /\
    snd (step (steps n cpu)) = false /\
    cpu' = fst (step (steps n cpu)) /\
    c' = count_up n c.
Proof.
  revert c cpu. induction fuel as [| fuel IH]; intros c cpu; cbn [run_loop].
  - split; [discriminate | intros (n & Hn & _); lia].
  - destruct (step cpu) as [cpu1 r] eqn:E. destruct r.
    + rewrite IH. split.
      * intros (n & Hn & Hrun & Hstop & -> & ->).
        exists (S n). cbn [steps count_up]. rewrite E. cbn [fst].
        repeat split; try assumption; [lia |].
        intros [| i] Hi; cbn [steps]; rewrite E; [reflexivity |].
        apply Hrun. lia.
      * intros (n & Hn & Hrun & Hstop & -> & ->).
        destruct n as [| n].
        { cbn [steps] in Hstop. rewrite E in Hstop. discriminate. }
        exists n. cbn [steps count_up] in *. rewrite E in *. cbn [fst] in *.
        repeat split; try assumption; [lia |].
        intros i Hi. specialize (Hrun (S i) ltac:(lia)).
        cbn [steps] in Hrun. rewrite E in Hrun. exact Hrun.
    + split.
      * intros [= <- <-]. exists 0%nat. cbn [steps count_up]. rewrite E.
        repeat split; [lia | intros i Hi; lia].
      * intros (n & Hn & Hrun & Hstop & -> & ->).
        destruct n as [| n].
        { cbn [steps count_up]. rewrite E. reflexivity. }
        specialize (Hrun 0%nat ltac:(lia)). cbn [steps] in Hrun.
        rewrite E in Hrun. discriminate.
Qed.

Lemma steps_S (n : nat) (cpu : GPRCPU) :
  steps (S n) cpu = fst (step (steps n cpu)).
Proof.
  revert cpu. induction n as [| n IH]; intros cpu; [reflexivity |].
  change (steps (S (S n)) cpu) with (steps (S n) (fst (step cpu))).
  rewrite IH. reflexivity.
Qed.

Lemma steps_not_halted (n : nat) (cpu : GPRCPU) :
  halted (state cpu) = false ->
  (forall i : nat, (i < n)%nat -> snd (step (steps i cpu)) = true) ->
  halted (state (steps n cpu)) = false.
Proof.
  intros Hh Hrun. destruct n as [| n]; [exact Hh |].
  rewrite steps_S. apply runnable_then_not_halted. apply Hrun. lia.
Qed.

Lemma execute_MOVI_eq (w : Z) (cpu : GPRCPU) :
  is_instr Opcode.MOVI w ->
  execute w cpu =
  let cpu := set_R (decodeRd w) (decodeImm9 w) cpu in
  setResultFlags (reg (decodeRd w) cpu) cpu.
Proof.
  intros H. unfold execute. rewrite (is_instr_as_Opcode _ _ H). reflexivity.
Qed.

Lemma execute_HALT_eq (w : Z) (cpu : GPRCPU) :
  is_instr Opcode.HALT w -> execute w cpu = set_halted true cpu.
Proof.
  intros H. unfold execute. rewrite (is_instr_as_Opcode _ _ H). reflexivity.
Qed.

Lemma Bus_read_cell (b : Bus) (address : nat) (v : Z) :
  bus_ok b -> memory b !! address = Some v -> Bus_read b (Z.of_nat address) = v.
Proof.
  intros [Hlen _] Hcell. apply lookup_lt_Some in Hcell as Hlt.
  rewrite Bus_read_in_range by lia.
  rewrite Nat2Z.id. apply list_lookup_total_correct. exact Hcell.
Qed.

(** C7: [run] returns after the first step that reports not runnable, and
    the count it returns is the number n of steps that reported runnable
    before it (the counter incremented n times, which is n itself as long
    as n fits [size_t]); the step that executes HALT is the one that
    reports not runnable and is not counted.  On a memory that holds the
    words of MOVI R0, 5 and HALT at addresses 0 and 1, [run] from the reset
    state returns 1 and ends with register 0 = 5 and halted = true. *)
Theorem run_counts_runnable_steps :
  (forall (fuel : nat) (cpu cpu' : GPRCPU) (cycles : Z),
     run fuel cpu = Some (cpu', cycles) <->
     exists n : nat,
       (n < fuel)%nat /\
       (forall i : nat, (i < n)%nat -> snd (step (steps i cpu)) = true) /\
       snd (step (steps n cpu)) = false /\
       cpu' = fst (step (steps n cpu)) /\
       cycles = count_up n 0) /\
  (forall n : nat, Z.of_nat n < 2 ^ SIZE_BITS -> count_up n 0 = Z.of_nat n) /\
  (forall (n : nat) (cpu : GPRCPU),
     halted (state cpu) = false ->
     (forall i : nat, (i < n)%nat -> snd (step (steps i cpu)) = true) ->
     snd (step (steps n cpu)) = false ->
     halted (state (steps n cpu)) = false /\
     is_instr Opcode.HALT
       (Bus_read (bus (steps n cpu)) (PC (state (steps n cpu))))) /\
  (forall (cpu : GPRCPU) (w0 w1 : Z) (fuel : nat),
     bus_ok (bus cpu) ->
     1 <= SIZE_BITS ->
     memory (bus cpu) !! 0%nat = Some w0 ->
     memory (bus cpu) !! 1%nat = Some w1 ->
     is_instr Opcode.MOVI w0 -> decodeRd w0 = 0 -> decodeImm9 w0 = 5 ->
     is_instr Opcode.HALT w1 ->
     (2 <= fuel)%nat ->
     exists cpu' : GPRCPU,
       run fuel (reset cpu) = Some (cpu', 1) /\
       reg 0 cpu' = 5 /\
       halted (state cpu') = true /\
       snd (step (reset cpu)) = true /\
       snd (step (fst (step (reset cpu)))) = false).
Proof.
  split; [| split; [| split]].
  - intros fuel cpu cpu' cycles. apply run_loop_spec.
  - intros n Hn. apply (count_up_exact n 0); lia.
  - intros n cpu Hh Hrun Hstop.
    pose proof (steps_not_halted n cpu Hh Hrun) as Hn.
    split; [exact Hn |].
    destruct (as_Opcode (decodeOpcode
                (Bus_read (bus (steps n cpu)) (PC (state (steps n cpu))))))
      as [o |] eqn:E.
    + pose proof (as_Opcode_is_instr _ _ E) as Hi.
      destruct o; try exact Hi;
        (assert (Hr : snd (step (steps n cpu)) = true);
         [ apply runnable_iff_not_HALT; [exact Hn |];
           intros Hhalt; apply is_instr_as_Opcode in Hhalt; congruence
         | congruence ]).
    + assert (Hr : snd (step (steps n cpu)) = true).
      { apply runnable_iff_not_HALT; [exact Hn |].
        intros Hhalt. apply is_instr_as_Opcode in Hhalt. congruence. }
      congruence.
  - intros cpu w0 w1 fuel Hbus Hsz Hw0 Hw1 Hmovi Hrd Himm Hhalt Hfuel.
    pose proof (Bus_read_cell _ 0 _ Hbus Hw0) as Hr0.
    pose proof (Bus_read_cell _ 1 _ Hbus Hw1) as Hr1.
    assert (Hone : usize (0 + 1) = 1).
    { unfold usize. apply Z.mod_small. split; [lia |].
      apply (Z.lt_le_trans _ (2 ^ 1)); [reflexivity |].
      apply Z.pow_le_mono_r; lia. }
    (* first step: MOVI R0, 5 *)
    assert (E1 : exists f, step (reset cpu) =
               (mkCPU (bus cpu) (mkState (<[0%nat := 5]> (replicate 8 0)) 1 f false),
                true)).
    { rewrite step_not_halted by reflexivity. cbv zeta.
      change (Bus_read (bus (reset cpu)) (PC (state (reset cpu))))
        with (Bus_read (bus cpu) (Z.of_nat 0)).
      rewrite Hr0, execute_MOVI_eq by assumption. cbv zeta. rewrite Hrd, Himm.
      match goal with
      | |- context [setResultFlags ?r ?c] =>
          destruct (setResultFlags_frame r c) as [f ->]
      end.
      exists f. reflexivity. }
    destruct E1 as [f E1].
    set (cpu1 := mkCPU (bus cpu) (mkState (<[0%nat := 5]> (replicate 8 0)) 1 f false)) in *.
    (* second step: HALT *)
    assert (E2 : step cpu1 = (set_halted true (set_PC 2 cpu1), false)).
    { rewrite step_not_halted by reflexivity. cbv zeta.
      change (Bus_read (bus cpu1) (PC (state cpu1)))
        with (Bus_read (bus cpu) (Z.of_nat 1)).
      rewrite Hr1, execute_HALT_eq by assumption. reflexivity. }
    exists (set_halted true (set_PC 2 cpu1)).
    destruct fuel as [| [| fuel]]; [lia | lia |].
    unfold run. cbn [run_loop]. rewrite E1, Hone. cbn [run_loop].
    rewrite E2. cbn [fst snd]. rewrite E2.
    repeat split.
Qed.

(** ** The representation invariant is kept by the machine *)

Lemma decodeImm9_is_u16 (w : Z) : is_u16 (decodeImm9 w).
Proof.
  rewrite decodeImm9_bits.
  pose proof (bit_range_bound w 8 0 512 ltac:(lia) eq_refl).
  unfold is_u16. lia.
Qed.

Lemma Bus_read_is_u16 (b : Bus) (address : Z) :
  bus_ok b -> is_u16 (Bus_read b address).
Proof.
  intros [_ Hall]. unfold Bus_read.
  destruct (address <? MEMORY_SIZE); [| unfold is_u16; lia].
  rewrite list_lookup_total_alt.
  destruct (memory b !! Z.to_nat address) as [x |] eqn:E; cbn.
  - exact (Forall_lookup_1 _ _ _ _ Hall E).
  - unfold is_u16. lia.
Qed.

Lemma Bus_write_ok (b : Bus) (address value : Z) :
  bus_ok b -> is_u16 value -> bus_ok (Bus_write b address value).
Proof.
  intros [Hlen Hall] Hv. split.
  - rewrite Bus_write_length. exact Hlen.
  - unfold Bus_write. destruct (address <? MEMORY_SIZE); [| exact Hall].
    cbn [memory]. apply Forall_insert; assumption.
Qed.

Lemma set_R_ok (i v : Z) (cpu : GPRCPU) :
  is_u16 v -> state_ok (state cpu) -> state_ok (state (set_R i v cpu)).
Proof.
  intros Hv (Hlen & Hall & Hpc). unfold state_ok, set_R; cbn.
  rewrite length_insert. repeat split; try assumption; try apply Hpc.
  apply Forall_insert; assumption.
Qed.

Lemma set_PC_ok (v : Z) (cpu : GPRCPU) :
  is_u16 v -> state_ok (state cpu) -> state_ok (state (set_PC v cpu)).
Proof. intros Hv (Hlen & Hall & _). unfold state_ok; cbn. auto. Qed.

Lemma set_FLAGS_ok (f : Z) (cpu : GPRCPU) :
  state_ok (state cpu) -> state_ok (state (set_FLAGS f cpu)).
Proof. intros H. exact H. Qed.

Lemma or_flag_if_ok (c : bool) (mask : Z) (cpu : GPRCPU) :
  state_ok (state cpu) -> state_ok (state (or_flag_if c mask cpu)).
Proof. intros H. destruct c; exact H. Qed.

Lemma setResultFlags_ok (result : Z) (cpu : GPRCPU) :
  state_ok (state cpu) -> state_ok (state (setResultFlags result cpu)).
Proof. intros H. destruct (setResultFlags_frame result cpu) as [f ->]. exact H. Qed.

Lemma setAddFlags_ok (a b result : Z) (cpu : GPRCPU) :
  state_ok (state cpu) -> state_ok (state (setAddFlags a b result cpu)).
Proof. intros H. destruct (setAddFlags_frame a b result cpu) as [f ->]. exact H. Qed.

Lemma setSubFlags_ok (a b result : Z) (cpu : GPRCPU) :
  state_ok (state cpu) -> state_ok (state (setSubFlags a b result cpu)).
Proof. intros H. destruct (setSubFlags_frame a b result cpu) as [f ->]. exact H. Qed.

Lemma reset_ok (cpu : GPRCPU) : state_ok (state (reset cpu)).
Proof.
  unfold state_ok; cbn. split; [reflexivity |]. split; [| unfold is_u16; lia].
  repeat (apply Forall_cons; split; [unfold is_u16; lia |]). apply Forall_nil_2.
Qed.

Lemma execute_ok (w : Z) (cpu : GPRCPU) :
  bus_ok (bus cpu) -> state_ok (state cpu) ->
  bus_ok (bus (execute w cpu)) /\ state_ok (state (execute w cpu)).
Proof.
  intros Hbus Hok.
  assert (Hd : is_u16 (reg (decodeRd w) cpu))
    by (apply reg_is_u16; auto using decodeRd_range).
  assert (Hs : is_u16 (reg (decodeRs w) cpu))
    by (apply reg_is_u16; auto using decodeRs_range).
  split.
  - rewrite execute_bus.
    destruct (as_Opcode (decodeOpcode w)) as [[] |]; try exact Hbus.
    apply Bus_write_ok; assumption.
  - unfold execute.
    destruct (as_Opcode (decodeOpcode w)) as [[] |]; cbv zeta;
      try exact Hok;
      repeat first
        [ apply setResultFlags_ok | apply setAddFlags_ok | apply setSubFlags_ok
        | apply or_flag_if_ok | apply set_FLAGS_ok ];
      try (apply set_R_ok; [| exact Hok]);
      try (apply set_PC_ok; [| exact Hok]);
      try apply u16_is_u16; try apply decodeImm9_is_u16;
      try apply Bus_read_is_u16; try assumption.
    destruct (flag FLAG_ZERO cpu); [apply set_PC_ok |]; assumption.
Qed.

Lemma step_ok (cpu : GPRCPU) :
  bus_ok (bus cpu) -> state_ok (state cpu) ->
  bus_ok (bus (fst (step cpu))) /\ state_ok (state (fst (step cpu))).
Proof.
  intros Hbus Hok. unfold step.
  destruct (halted (state cpu)); cbn [fst]; [split; assumption |].
  apply execute_ok; [exact Hbus |].
  apply set_PC_ok; [apply u16_is_u16 | exact Hok].
Qed.

(** * Further properties of the instruction set *)

(** ** The remaining cases of [execute] *)

Lemma execute_MOV_eq (w : Z) (cpu : GPRCPU) :
  is_instr Opcode.MOV w ->
  execute w cpu =
  let cpu1 := set_R (decodeRd w) (reg (decodeRs w) cpu) cpu in
  setResultFlags (reg (decodeRd w) cpu1) cpu1.
Proof.
  intros H. unfold execute. rewrite (is_instr_as_Opcode _ _ H). reflexivity.
Qed.

Lemma execute_LOAD_eq (w : Z) (cpu : GPRCPU) :
  is_instr Opcode.LOAD w ->
  execute w cpu =
  let cpu1 := set_R (decodeRd w) (Bus_read (bus cpu) (reg (decodeRs w) cpu)) cpu in
  setResultFlags (reg (decodeRd w) cpu1) cpu1.
Proof.
  intros H. unfold execute. rewrite (is_instr_as_Opcode _ _ H). reflexivity.
Qed.

Lemma execute_STORE_eq (w : Z) (cpu : GPRCPU) :
  is_instr Opcode.STORE w ->
  execute w cpu =
  set_bus (Bus_write (bus cpu) (reg (decodeRs w) cpu) (reg (decodeRd w) cpu)) cpu.
Proof.
  intros H. unfold execute. rewrite (is_instr_as_Opcode _ _ H). reflexivity.
Qed.

Lemma execute_AND_eq (w : Z) (cpu : GPRCPU) :
  is_instr Opcode.AND w ->
  execute w cpu =
  let cpu1 := set_R (decodeRd w)
                (u16 (Z.land (reg (decodeRd w) cpu) (reg (decodeRs w) cpu))) cpu in
  setResultFlags (reg (decodeRd w) cpu1) cpu1.
Proof.
  intros H. unfold execute. rewrite (is_instr_as_Opcode _ _ H). reflexivity.
Qed.

Lemma execute_OR_eq (w : Z) (cpu : GPRCPU) :
  is_instr Opcode.OR w ->
  execute w cpu =
  let cpu1 := set_R (decodeRd w)
                (u16 (Z.lor (reg (decodeRd w) cpu) (reg (decodeRs w) cpu))) cpu in
  setResultFlags (reg (decodeRd w) cpu1) cpu1.
Proof.
  intros H. unfold execute. rewrite (is_instr_as_Opcode _ _ H). reflexivity.
Qed.

Lemma execute_XOR_eq (w : Z) (cpu : GPRCPU) :
  is_instr Opcode.XOR w ->
  execute w cpu =
  let cpu1 := set_R (decodeRd w)
                (u16 (Z.lxor (reg (decodeRd w) cpu) (reg (decodeRs w) cpu))) cpu in
  setResultFlags (reg (decodeRd w) cpu1) cpu1.
Proof.
  intros H. unfold execute. rewrite (is_instr_as_Opcode _ _ H). reflexivity.
Qed.

Lemma execute_NOT_eq (w : Z) (cpu : GPRCPU) :
  is_instr Opcode.NOT w ->
  execute w cpu =
  let cpu1 := set_R (decodeRd w) (u16 (Z.lnot (reg (decodeRs w) cpu))) cpu in
  setResultFlags (reg (decodeRd w) cpu1) cpu1.
Proof.
  intros H. unfold execute. rewrite (is_instr_as_Opcode _ _ H). reflexivity.
Qed.

Lemma execute_NOP_eq (w : Z) (cpu : GPRCPU) :
  is_instr Opcode.NOP w -> execute w cpu = cpu.
Proof.
  intros H. unfold execute. rewrite (is_instr_as_Opcode _ _ H). reflexivity.
Qed.

Lemma execute_unknown_eq (w : Z) (cpu : GPRCPU) :
  unknown_opcode w -> execute w cpu = cpu.
Proof.
  intros H. unfold execute.
  destruct (as_Opcode (decodeOpcode w)) as [o |] eqn:E; [| reflexivity].
  apply as_Opcode_is_instr in E. destruct (H o E).
Qed.

(** What an instruction of the form "write [v] to Rd, then
    [setResultFlags(R[rd])]" leaves behind. *)
Lemma result_op_effect (rd v : Z) (cpu cpu' : GPRCPU) :
  state_ok (state cpu) -> 0 <= rd <= 7 ->
  cpu' = (let cpu1 := set_R rd v cpu in setResultFlags (reg rd cpu1) cpu1) ->
  reg rd cpu' = v /\
  flag FLAG_ZERO cpu' = (v =? 0) /\
  flag FLAG_NEGATIVE cpu' = Z.testbit v 15 /\
  flag FLAG_CARRY cpu' = false.
Proof.
  intros Hok Hrd ->. cbv zeta.
  assert (Hv : reg rd (set_R rd v cpu) = v)
    by (apply reg_set_R_same; [apply Hok | exact Hrd]).
  rewrite Hv.
  destruct (setResultFlags_flags v (set_R rd v cpu)) as (HZ & HN & HC).
  rewrite bit15_test in HN.
  destruct (setResultFlags_frame v (set_R rd v cpu)) as [f Hf].
  split; [rewrite Hf, reg_set_FLAGS; exact Hv | auto].
Qed.

Lemma is_u16_high_bit (x i : Z) : is_u16 x -> 16 <= i -> Z.testbit x i = false.
Proof.
  intros Hx Hi. rewrite <- (Z.mod_small x (2 ^ 16)) by exact Hx.
  apply Z.mod_pow2_bits_high. lia.
Qed.

Lemma u16_of_low_bits (x : Z) :
  (forall i, 16 <= i -> Z.testbit x i = false) -> u16 x = x.
Proof.
  intros H. unfold u16. apply Z.bits_inj'. intros i Hi.
  rewrite Z.testbit_mod_pow2 by lia.
  destruct (Z.ltb_spec i 16) as [Hlt | Hge]; cbn [andb]; [reflexivity |].
  symmetry. apply H. exact Hge.
Qed.

Lemma u16_testbit (x i : Z) :
  0 <= i < 16 -> Z.testbit (u16 x) i = Z.testbit x i.
Proof.
  intros Hi. unfold u16. apply Z.mod_pow2_bits_low. lia.
Qed.

Lemma u16_lnot (x : Z) : is_u16 x -> u16 (Z.lnot x) = 65535 - x.
Proof.
  intros Hx. unfold u16, is_u16 in *. change (2 ^ 16) with 65536 in *.
  symmetry. apply (Z.mod_unique _ _ (-1)); [left; lia |].
  unfold Z.lnot. lia.
Qed.

(** X1 (MOVI): Rd receives the 9-bit immediate, a value in 0..511; ZERO is
    set iff the immediate is 0; NEGATIVE and CARRY are always clear. *)
Theorem MOVI_semantics (w : Z) (cpu : GPRCPU) :
  state_ok (state cpu) ->
  is_instr Opcode.MOVI w ->
  let cpu' := execute w cpu in
  reg (decodeRd w) cpu' = decodeImm9 w /\
  0 <= decodeImm9 w <= 511 /\
  (flag FLAG_ZERO cpu' = true <-> decodeImm9 w = 0) /\
  flag FLAG_NEGATIVE cpu' = false /\
  flag FLAG_CARRY cpu' = false.
Proof.
  intros Hok Hw cpu'.
  destruct (result_op_effect (decodeRd w) (decodeImm9 w) cpu cpu' Hok
              (decodeRd_range w) (execute_MOVI_eq w cpu Hw)) as (Hr & HZ & HN & HC).
  assert (Hi : 0 <= decodeImm9 w < 2 ^ 9).
  { rewrite decodeImm9_bits. apply bit_range_bound; [lia | reflexivity]. }
  split; [exact Hr |].
  split; [change (2 ^ 9) with 512 in Hi; lia |].
  split; [rewrite HZ; apply Z.eqb_eq |].
  split; [| exact HC].
  rewrite HN, <- (Z.mod_small _ _ Hi). apply Z.mod_pow2_bits_high. lia.
Qed.

(** X2 (MOV): Rd receives the value of Rs; ZERO is set iff that value is 0,
    NEGATIVE iff its bit 15 is set; CARRY is clear. *)
Theorem MOV_semantics (w : Z) (cpu : GPRCPU) :
  state_ok (state cpu) ->
  is_instr Opcode.MOV w ->
  let v := reg (decodeRs w) cpu in
  let cpu' := execute w cpu in
  reg (decodeRd w) cpu' = v /\
  (flag FLAG_ZERO cpu' = true <-> v = 0) /\
  flag FLAG_NEGATIVE cpu' = Z.testbit v 15 /\
  flag FLAG_CARRY cpu' = false.
Proof.
  intros Hok Hw v cpu'.
  destruct (result_op_effect (decodeRd w) v cpu cpu' Hok
              (decodeRd_range w) (execute_MOV_eq w cpu Hw)) as (Hr & HZ & HN & HC).
  split; [exact Hr |]. split; [rewrite HZ; apply Z.eqb_eq |]. auto.
Qed.

(** X3 (LOAD): Rd receives the cell addressed by the value of Rs when that
    address is within capacity, and 0 with ZERO set when it is beyond
    capacity; the loaded value is a 16-bit value, ZERO and NEGATIVE are
    computed from it, CARRY is clear, and the Bus is left as it was. *)
Theorem LOAD_semantics (w : Z) (cpu : GPRCPU) :
  bus_ok (bus cpu) -> state_ok (state cpu) ->
  is_instr Opcode.LOAD w ->
  let addr := reg (decodeRs w) cpu in
  let cpu' := execute w cpu in
  let v := reg (decodeRd w) cpu' in
  (addr < MEMORY_SIZE -> memory (bus cpu) !! Z.to_nat addr = Some v) /\
  (MEMORY_SIZE <= addr -> v = 0 /\ flag FLAG_ZERO cpu' = true) /\
  is_u16 v /\
  (flag FLAG_ZERO cpu' = true <-> v = 0) /\
  flag FLAG_NEGATIVE cpu' = Z.testbit v 15 /\
  flag FLAG_CARRY cpu' = false /\
  bus cpu' = bus cpu.
Proof.
  intros Hbus Hok Hw addr cpu' v.
  destruct (result_op_effect (decodeRd w) (Bus_read (bus cpu) addr) cpu cpu' Hok
              (decodeRd_range w) (execute_LOAD_eq w cpu Hw)) as (Hr & HZ & HN & HC).
  fold v in Hr. rewrite <- Hr in HZ, HN.
  assert (Haddr : is_u16 addr)
    by (apply reg_is_u16; [exact Hok | apply decodeRs_range]).
  split.
  { intros Hin. rewrite Hr, Bus_read_in_range by exact Hin.
    apply list_lookup_lookup_total_lt. destruct Hbus as [-> _].
    unfold is_u16 in Haddr. lia. }
  split.
  { intros Hout. rewrite HZ, Hr, Bus_read_beyond by exact Hout.
    split; reflexivity. }
  split; [rewrite Hr; apply Bus_read_is_u16; exact Hbus |].
  split; [rewrite HZ; apply Z.eqb_eq |].
  split; [exact HN |]. split; [exact HC |].
  subst cpu'. rewrite execute_bus, (is_instr_as_Opcode _ _ Hw). reflexivity.
Qed.

(** X4 (AND, OR, XOR): Rd receives the bitwise combination of the values
    of Rd and Rs; the conversion to 16 bits never cuts anything off.  ZERO
    is set iff the result is 0, NEGATIVE is the combination of the two
    sign bits, CARRY is clear. *)
Theorem logic_semantics (w : Z) (cpu : GPRCPU) :
  state_ok (state cpu) ->
  let a := reg (decodeRd w) cpu in
  let b := reg (decodeRs w) cpu in
  let cpu' := execute w cpu in
  let r := reg (decodeRd w) cpu' in
  (is_instr Opcode.AND w ->
     r = Z.land a b /\
     (flag FLAG_ZERO cpu' = true <-> r = 0) /\
     flag FLAG_NEGATIVE cpu' = Z.testbit a 15 && Z.testbit b 15 /\
     flag FLAG_CARRY cpu' = false) /\
  (is_instr Opcode.OR w ->
     r = Z.lor a b /\
     (flag FLAG_ZERO cpu' = true <-> a = 0 /\ b = 0) /\
     flag FLAG_NEGATIVE cpu' = Z.testbit a 15 || Z.testbit b 15 /\
     flag FLAG_CARRY cpu' = false) /\
  (is_instr Opcode.XOR w ->
     r = Z.lxor a b /\
     (flag FLAG_ZERO cpu' = true <-> a = b) /\
     flag FLAG_NEGATIVE cpu' = xorb (Z.testbit a 15) (Z.testbit b 15) /\
     flag FLAG_CARRY cpu' = false).
Proof.
  intros Hok a b cpu' r.
  assert (Ha : is_u16 a) by (apply reg_is_u16; [exact Hok | apply decodeRd_range]).
  assert (Hb : is_u16 b) by (apply reg_is_u16; [exact Hok | apply decodeRs_range]).
  pose proof (is_u16_high_bit a) as Hah. pose proof (is_u16_high_bit b) as Hbh.
  split; [| split]; intros Hw.
  - destruct (result_op_effect (decodeRd w) (u16 (Z.land a b)) cpu cpu' Hok
                (decodeRd_range w) (execute_AND_eq w cpu Hw)) as (Hr & HZ & HN & HC).
    fold r in Hr.
    assert (E : u16 (Z.land a b) = Z.land a b).
    { apply u16_of_low_bits. intros i Hi.
      rewrite Z.land_spec, Hah by assumption. reflexivity. }
    rewrite E in *. rewrite Z.land_spec in HN.
    split; [exact Hr |]. split; [rewrite HZ, Hr; apply Z.eqb_eq |]. auto.
  - destruct (result_op_effect (decodeRd w) (u16 (Z.lor a b)) cpu cpu' Hok
                (decodeRd_range w) (execute_OR_eq w cpu Hw)) as (Hr & HZ & HN & HC).
    fold r in Hr.
    assert (E : u16 (Z.lor a b) = Z.lor a b).
    { apply u16_of_low_bits. intros i Hi.
      rewrite Z.lor_spec, Hah, Hbh by assumption. reflexivity. }
    rewrite E in *. rewrite Z.lor_spec in HN.
    split; [exact Hr |].
    split; [rewrite HZ, Z.eqb_eq; apply Z.lor_eq_0_iff |]. auto.
  - destruct (result_op_effect (decodeRd w) (u16 (Z.lxor a b)) cpu cpu' Hok
                (decodeRd_range w) (execute_XOR_eq w cpu Hw)) as (Hr & HZ & HN & HC).
    fold r in Hr.
    assert (E : u16 (Z.lxor a b) = Z.lxor a b).
    { apply u16_of_low_bits. intros i Hi.
      rewrite Z.lxor_spec, Hah, Hbh by assumption. reflexivity. }
    rewrite E in *. rewrite Z.lxor_spec in HN.
    split; [exact Hr |].
    split; [rewrite HZ, Z.eqb_eq; apply Z.lxor_eq_0_iff |]. auto.
Qed.

(** X5 (NOT): Rd receives 65535 minus the value of Rs, the complement
    within 16 bits; ZERO is set iff Rs held 0xFFFF, NEGATIVE iff bit 15 of
    Rs was clear, CARRY is clear. *)
Theorem NOT_semantics (w : Z) (cpu : GPRCPU) :
  state_ok (state cpu) ->
  is_instr Opcode.NOT w ->
  let b := reg (decodeRs w) cpu in
  let cpu' := execute w cpu in
  let r := reg (decodeRd w) cpu' in
  r = 65535 - b /\
  (forall i, 0 <= i < 16 -> Z.testbit r i = negb (Z.testbit b i)) /\
  (flag FLAG_ZERO cpu' = true <-> b = 0xFFFF) /\
  flag FLAG_NEGATIVE cpu' = negb (Z.testbit b 15) /\
  flag FLAG_CARRY cpu' = false.
Proof.
  intros Hok Hw b cpu' r.
  assert (Hb : is_u16 b) by (apply reg_is_u16; [exact Hok | apply decodeRs_range]).
  destruct (result_op_effect (decodeRd w) (u16 (Z.lnot b)) cpu cpu' Hok
              (decodeRd_range w) (execute_NOT_eq w cpu Hw)) as (Hr & HZ & HN & HC).
  fold r in Hr.
  assert (Hbits : forall i, 0 <= i < 16 -> Z.testbit r i = negb (Z.testbit b i)).
  { intros i Hi. rewrite Hr, u16_testbit, Z.lnot_spec by lia. reflexivity. }
  rewrite <- Hr in HN. rewrite Hbits in HN by lia.
  rewrite u16_lnot in * by exact Hb.
  split; [exact Hr |]. split; [exact Hbits |].
  split; [rewrite HZ, Z.eqb_eq; lia |]. auto.
Qed.

(** ** What each instruction leaves alone *)

Lemma R_or_flag_if (c : bool) (mask : Z) (cpu : GPRCPU) :
  R (state (or_flag_if c mask cpu)) = R (state cpu).
Proof. destruct c; reflexivity. Qed.

Lemma PC_or_flag_if (c : bool) (mask : Z) (cpu : GPRCPU) :
  PC (state (or_flag_if c mask cpu)) = PC (state cpu).
Proof. destruct c; reflexivity. Qed.

(** The register file after [execute]: the old one, or the old one with
    the cell of Rd replaced. *)
Lemma execute_R (w : Z) (cpu : GPRCPU) :
  exists v : Z,
    R (state (execute w cpu)) = R (state cpu) \/
    R (state (execute w cpu)) = <[Z.to_nat (decodeRd w) := v]> (R (state cpu)).
Proof.
  unfold execute.
  destruct (as_Opcode (decodeOpcode w)) as [[] |]; cbv zeta;
    unfold setResultFlags, setAddFlags, setSubFlags;
    rewrite ?R_or_flag_if; cbn [clear_flags set_FLAGS set_R set_halted set_bus
                                 set_PC state R];
    try (exists 0; left; reflexivity);
    try (eexists; right; reflexivity).
  exists 0. left. destruct (flag FLAG_ZERO cpu); reflexivity.
Qed.

(** X6 (registers): an instruction changes no register other than Rd, and
    the instructions HALT, STORE, JMP, JZ, NOP and the unknown opcodes
    change no register at all. *)
Theorem execute_changes_only_Rd (w : Z) (cpu : GPRCPU) :
  (forall j : Z, 0 <= j -> j <> decodeRd w ->
     reg j (execute w cpu) = reg j cpu) /\
  length (R (state (execute w cpu))) = length (R (state cpu)) /\
  ((forall o, is_instr o w -> flag_affecting o = false) ->
     R (state (execute w cpu)) = R (state cpu)).
Proof.
  destruct (execute_R w cpu) as [v Hv].
  split; [| split].
  - intros j Hj Hne. unfold reg. destruct Hv as [-> | ->]; [reflexivity |].
    apply list_lookup_total_insert_ne. pose proof (decodeRd_range w). lia.
  - destruct Hv as [-> | ->]; [reflexivity | apply length_insert].
  - intros Hno. unfold execute.
    destruct (as_Opcode (decodeOpcode w)) as [o |] eqn:E; [| reflexivity].
    pose proof (Hno o (as_Opcode_is_instr _ _ E)) as Ho.
    destruct o; try discriminate Ho; try reflexivity.
    destruct (flag FLAG_ZERO cpu); reflexivity.
Qed.

Lemma execute_PC_same (w : Z) (cpu : GPRCPU) :
  ~ is_instr Opcode.JMP w -> ~ is_instr Opcode.JZ w ->
  PC (state (execute w cpu)) = PC (state cpu).
Proof.
  intros Hj Hz. unfold execute.
  destruct (as_Opcode (decodeOpcode w)) as [o |] eqn:E; [| reflexivity].
  apply as_Opcode_is_instr in E.
  destruct o; try contradiction; cbv zeta;
    unfold setResultFlags, setAddFlags, setSubFlags;
    rewrite ?PC_or_flag_if; reflexivity.
Qed.

(** X7 (PC and halted): [execute] changes PC only in the JMP and JZ cases
    and sets [halted] only in the HALT case; it never clears [halted]. *)
Theorem execute_PC_halted_frame (w : Z) (cpu : GPRCPU) :
  (~ is_instr Opcode.JMP w -> ~ is_instr Opcode.JZ w ->
     PC (state (execute w cpu)) = PC (state cpu)) /\
  (~ is_instr Opcode.HALT w ->
     halted (state (execute w cpu)) = halted (state cpu)) /\
  (halted (state cpu) = true -> halted (state (execute w cpu)) = true).
Proof.
  split; [| split].
  - apply execute_PC_same.
  - intros Hh. rewrite execute_halted.
    destruct (as_Opcode (decodeOpcode w)) as [o |] eqn:E; [| reflexivity].
    apply as_Opcode_is_instr in E. destruct o; try contradiction; reflexivity.
  - intros Hh. rewrite execute_halted, Hh.
    destruct (as_Opcode (decodeOpcode w)) as [[] |]; reflexivity.
Qed.

(** X8 (FLAGS): the instructions HALT, STORE, JMP, JZ, NOP and the unknown
    opcodes leave [FLAGS] exactly as it was. *)
Theorem execute_FLAGS_frame (w : Z) (cpu : GPRCPU) :
  (forall o, is_instr o w -> flag_affecting o = false) ->
  FLAGS (state (execute w cpu)) = FLAGS (state cpu).
Proof.
  intros Hno. unfold execute.
  destruct (as_Opcode (decodeOpcode w)) as [o |] eqn:E; [| reflexivity].
  pose proof (Hno o (as_Opcode_is_instr _ _ E)) as Ho.
  destruct o; try discriminate Ho; try reflexivity.
  destruct (flag FLAG_ZERO cpu); reflexivity.
Qed.

(** ** Bits of [FLAGS] outside the three masks *)

Lemma uflags_testbit (x i : Z) :
  0 <= i -> Z.testbit (uflags x) i = (i <? FLAGS_BITS) && Z.testbit x i.
Proof.
  intros Hi. unfold uflags. apply Z.testbit_mod_pow2. apply FLAGS_BITS_nonneg.
Qed.

Lemma uflags_range (x : Z) : 0 <= uflags x < 2 ^ FLAGS_BITS.
Proof.
  unfold uflags. apply Z.mod_pos_bound.
  apply Z.pow_pos_nonneg; [lia | apply FLAGS_BITS_nonneg].
Qed.

Lemma flags_ok_high_bit (cpu : GPRCPU) (i : Z) :
  flags_ok cpu -> FLAGS_BITS <= i -> Z.testbit (FLAGS (state cpu)) i = false.
Proof.
  intros Hf Hi. rewrite <- (Z.mod_small _ _ Hf).
  apply Z.mod_pow2_bits_high. pose proof FLAGS_BITS_nonneg. lia.
Qed.

Lemma flags_kept_refl (cpu : GPRCPU) : flags_ok cpu -> flags_kept cpu cpu.
Proof. intros H. split; [exact H | reflexivity]. Qed.

Lemma flags_kept_clear (cpu cpu' : GPRCPU) :
  flags_kept cpu cpu' -> flags_kept cpu (clear_flags cpu').
Proof.
  intros [Hok Hbits]. split; [apply uflags_range |].
  intros i Hi Hs. rewrite <- (Hbits i Hi Hs). cbn.
  rewrite uflags_testbit, Z.land_spec, Z.lnot_spec, !Z.lor_spec by assumption.
  destruct Hs as (-> & -> & ->). cbn. rewrite andb_true_r.
  destruct (Z.ltb_spec i FLAGS_BITS); [reflexivity |].
  symmetry. apply flags_ok_high_bit; assumption.
Qed.

Lemma flags_kept_or (c : bool) (mask : Z) (cpu cpu' : GPRCPU) :
  is_mask mask -> flags_kept cpu cpu' -> flags_kept cpu (or_flag_if c mask cpu').
Proof.
  intros Hm [Hok Hbits]. destruct c; [| split; assumption].
  split; [apply uflags_range |].
  intros i Hi Hs. rewrite <- (Hbits i Hi Hs). cbn.
  rewrite uflags_testbit, Z.lor_spec by assumption.
  replace (Z.testbit mask i) with false
    by (destruct Hs as (HZ & HC & HN); destruct Hm as [-> | [-> | ->]]; congruence).
  rewrite orb_false_r.
  destruct (Z.ltb_spec i FLAGS_BITS); [reflexivity |].
  symmetry. apply flags_ok_high_bit; assumption.
Qed.

Lemma execute_flags_kept (w : Z) (cpu : GPRCPU) :
  flags_ok cpu -> flags_kept cpu (execute w cpu).
Proof.
  intros Hf. pose proof (flags_kept_refl cpu Hf) as H0.
  unfold execute.
  destruct (as_Opcode (decodeOpcode w)) as [[] |]; cbv zeta;
    unfold setResultFlags, setAddFlags, setSubFlags;
    repeat first
      [ exact H0
      | apply flags_kept_or;
        [first [apply is_mask_ZERO | apply is_mask_CARRY | apply is_mask_NEGATIVE] |]
      | apply flags_kept_clear ].
  destruct (flag FLAG_ZERO cpu); exact H0.
Qed.

(** X9 (spare flag bits): whatever the instruction, [FLAGS] stays a value
    of its type and every bit of it that lies outside the three masks
    keeps its value. *)
Theorem execute_keeps_spare_flag_bits (w : Z) (cpu : GPRCPU) :
  flags_ok cpu ->
  flags_ok (execute w cpu) /\
  (forall i : Z, 0 <= i -> spare_bit i ->
     Z.testbit (FLAGS (state (execute w cpu))) i =
     Z.testbit (FLAGS (state cpu)) i).
Proof. intros Hf. exact (execute_flags_kept w cpu Hf). Qed.

(** ** Relations between the flags and the operands *)

Lemma zero_not_negative (r : Z) :
  (r =? 0) = true -> nonzero (Z.land r 0x8000) = false.
Proof. intros H. apply Z.eqb_eq in H. subst r. reflexivity. Qed.

(** X10 (ZERO and NEGATIVE): after a flag-affecting instruction ZERO and
    NEGATIVE are never both set. *)
Theorem zero_and_negative_exclude (o : Opcode.t) (w : Z) (cpu : GPRCPU) :
  is_instr o w -> flag_affecting o = true ->
  ~ (flag FLAG_ZERO (execute w cpu) = true /\
     flag FLAG_NEGATIVE (execute w cpu) = true).
Proof.
  intros Hw Ho [HZ HN]. apply is_instr_as_Opcode in Hw.
  revert HZ HN. unfold execute. rewrite Hw.
  destruct o; try discriminate Ho; cbv zeta;
    unfold setResultFlags, setAddFlags, setSubFlags;
    flag_tests; rewrite ?reg_or_flag_if, ?reg_clear_flags;
    intros HZ HN; rewrite (zero_not_negative _ HZ) in HN; discriminate HN.
Qed.

Lemma ADD_effect (w : Z) (cpu : GPRCPU) :
  state_ok (state cpu) -> is_instr Opcode.ADD w ->
  let a := reg (decodeRd w) cpu in
  let b := reg (decodeRs w) cpu in
  reg (decodeRd w) (execute w cpu) = u16 (a + b) /\
  flag FLAG_ZERO (execute w cpu) = (u16 (a + b) =? 0) /\
  flag FLAG_CARRY (execute w cpu) = (a + b >? 0xFFFF).
Proof.
  intros Hok Hw a b. rewrite execute_ADD_eq by assumption. cbv zeta. fold a b.
  destruct (setAddFlags_flags a b (u16 (a + b))
              (set_R (decodeRd w) (u16 (a + b)) cpu)) as (HZ & _ & HC).
  destruct (setAddFlags_frame a b (u16 (a + b))
              (set_R (decodeRd w) (u16 (a + b)) cpu)) as [f Hf].
  split; [| split; assumption].
  rewrite Hf, reg_set_FLAGS. apply reg_set_R_same; [apply Hok | apply decodeRd_range].
Qed.

Lemma SUB_effect (w : Z) (cpu : GPRCPU) :
  state_ok (state cpu) -> is_instr Opcode.SUB w ->
  let a := reg (decodeRd w) cpu in
  let b := reg (decodeRs w) cpu in
  reg (decodeRd w) (execute w cpu) = u16 (a - b) /\
  flag FLAG_ZERO (execute w cpu) = (u16 (a - b) =? 0) /\
  flag FLAG_CARRY (execute w cpu) = (a >=? b).
Proof.
  intros Hok Hw a b. rewrite execute_SUB_eq by assumption. cbv zeta. fold a b.
  destruct (setSubFlags_flags a b (u16 (a - b))
              (set_R (decodeRd w) (u16 (a - b)) cpu)) as (HZ & _ & HC).
  destruct (setSubFlags_frame a b (u16 (a - b))
              (set_R (decodeRd w) (u16 (a - b)) cpu)) as [f Hf].
  split; [| split; assumption].
  rewrite Hf, reg_set_FLAGS. apply reg_set_R_same; [apply Hok | apply decodeRd_range].
Qed.

Lemma u16_wrap_up (x : Z) : 65536 <= x < 131072 -> u16 x = x - 65536.
Proof.
  intros H. unfold u16. symmetry.
  apply (Z.mod_unique _ _ 1); [left | ]; change (2 ^ 16) with 65536; lia.
Qed.

Lemma u16_wrap_down (x : Z) : -65536 <= x < 0 -> u16 x = x + 65536.
Proof.
  intros H. unfold u16. symmetry.
  apply (Z.mod_unique _ _ (-1)); [left | ]; change (2 ^ 16) with 65536; lia.
Qed.

Lemma u16_id (x : Z) : 0 <= x < 65536 -> u16 x = x.
Proof. intros H. apply u16_small. exact H. Qed.

(** X11 (ADD, SUB: nothing is lost): the result in Rd together with CARRY
    gives back the exact sum or difference of the operands: a + b is the
    result plus 65536 when CARRY is set, and a - b is the result minus
    65536 when CARRY is clear (a borrow). *)
Theorem carry_completes_ADD_SUB (w : Z) (cpu : GPRCPU) :
  state_ok (state cpu) ->
  let a := reg (decodeRd w) cpu in
  let b := reg (decodeRs w) cpu in
  let cpu' := execute w cpu in
  let r := reg (decodeRd w) cpu' in
  (is_instr Opcode.ADD w -> a + b = r + 65536 * Z.b2z (flag FLAG_CARRY cpu')) /\
  (is_instr Opcode.SUB w ->
     a - b = r - 65536 * Z.b2z (negb (flag FLAG_CARRY cpu'))).
Proof.
  intros Hok a b cpu' r.
  assert (Ha : 0 <= a < 65536)
    by (apply (reg_is_u16 (decodeRd w) cpu Hok); apply decodeRd_range).
  assert (Hb : 0 <= b < 65536)
    by (apply (reg_is_u16 (decodeRs w) cpu Hok); apply decodeRs_range).
  split; intros Hw.
  - destruct (ADD_effect w cpu Hok Hw) as (Hr & _ & HC).
    fold a b cpu' in Hr, HC. fold r in Hr. rewrite Hr, HC.
    destruct (Z.gtb_spec (a + b) 0xFFFF); cbn [Z.b2z].
    + rewrite u16_wrap_up by lia. lia.
    + rewrite u16_id by lia. lia.
  - destruct (SUB_effect w cpu Hok Hw) as (Hr & _ & HC).
    fold a b cpu' in Hr, HC. fold r in Hr. rewrite Hr, HC.
    destruct (Z.geb_spec a b); cbn [Z.b2z negb].
    + rewrite u16_id by lia. lia.
    + rewrite u16_wrap_down by lia. lia.
Qed.

Lemma bit15_of_u16 (v : Z) : is_u16 v -> Z.testbit v 15 = (32768 <=? v).
Proof.
  intros Hv. unfold is_u16 in Hv. change (2 ^ 16) with 65536 in Hv.
  rewrite Z.testbit_odd, Z.shiftr_div_pow2 by lia. change (2 ^ 15) with 32768.
  destruct (Z.leb_spec 32768 v).
  - rewrite <- (Z.div_unique v 32768 1 (v - 32768)); [reflexivity | lia | lia].
  - rewrite Z.div_small by lia. reflexivity.
Qed.

(** X12 (SHL, SHR: nothing is lost): the result in Rd together with CARRY
    gives back the shifted value: 2 v is the SHL result plus 65536 when
    CARRY is set, and v is twice the SHR result plus 1 when CARRY is set. *)
Theorem carry_completes_shifts (w : Z) (cpu : GPRCPU) :
  state_ok (state cpu) ->
  let v := reg (decodeRd w) cpu in
  let cpu' := execute w cpu in
  let r := reg (decodeRd w) cpu' in
  (is_instr Opcode.SHL w -> 2 * v = r + 65536 * Z.b2z (flag FLAG_CARRY cpu')) /\
  (is_instr Opcode.SHR w -> v = 2 * r + Z.b2z (flag FLAG_CARRY cpu')).
Proof.
  intros Hok v cpu' r.
  assert (Hv : is_u16 v) by (apply reg_is_u16; [exact Hok | apply decodeRd_range]).
  assert (Hv' : 0 <= v < 65536) by exact Hv.
  split; intros Hw.
  - destruct (shift_effect (decodeRd w) (u16 (Z.shiftl v 1))
                (nonzero (Z.land v 0x8000)) cpu cpu' Hok (decodeRd_range w)
                (execute_SHL_eq w cpu Hw)) as (Hr & _ & _ & HC).
    fold r in Hr. rewrite Hr, HC, bit15_test, bit15_of_u16 by exact Hv.
    rewrite Z.shiftl_mul_pow2 by lia. change (2 ^ 1) with 2.
    destruct (Z.leb_spec 32768 v); cbn [Z.b2z].
    + rewrite u16_wrap_up by lia. lia.
    + rewrite u16_id by lia. lia.
  - destruct (shift_effect (decodeRd w) (u16 (Z.shiftr v 1))
                (nonzero (Z.land v 1)) cpu cpu' Hok (decodeRd_range w)
                (execute_SHR_eq w cpu Hw)) as (Hr & _ & _ & HC).
    fold r in Hr. rewrite Hr, HC, bit0_test, Z.bit0_odd.
    rewrite <- Z.div2_spec.
    pose proof (Z.div2_odd v) as Hd.
    destruct (Z.odd v); cbn [Z.b2z] in *; rewrite u16_id by lia; lia.
Qed.

(** X13 (SUB compares): after SUB, ZERO is set iff the operands were
    equal, and CARRY is clear iff the value of Rd was below the value of
    Rs. *)
Theorem SUB_compares (w : Z) (cpu : GPRCPU) :
  state_ok (state cpu) ->
  is_instr Opcode.SUB w ->
  let a := reg (decodeRd w) cpu in
  let b := reg (decodeRs w) cpu in
  let cpu' := execute w cpu in
  (flag FLAG_ZERO cpu' = true <-> a = b) /\
  (flag FLAG_CARRY cpu' = false <-> a < b) /\
  (flag FLAG_ZERO cpu' = true -> flag FLAG_CARRY cpu' = true).
Proof.
  intros Hok Hw a b cpu'.
  assert (Ha : 0 <= a < 65536)
    by (apply (reg_is_u16 (decodeRd w) cpu Hok); apply decodeRd_range).
  assert (Hb : 0 <= b < 65536)
    by (apply (reg_is_u16 (decodeRs w) cpu Hok); apply decodeRs_range).
  destruct (SUB_effect w cpu Hok Hw) as (_ & HZ & HC).
  fold a b cpu' in HZ, HC.
  assert (E : flag FLAG_ZERO cpu' = true <-> a = b).
  { rewrite HZ, Z.eqb_eq.
    destruct (Z.lt_ge_cases a b).
    - rewrite u16_wrap_down by lia. lia.
    - rewrite u16_id by lia. lia. }
  split; [exact E |]. split.
  - rewrite HC. destruct (Z.geb_spec a b); split; intros H';
      first [lia | discriminate H' | reflexivity].
  - intros HZt. apply E in HZt. rewrite HC.
    destruct (Z.geb_spec a b); [reflexivity | lia].
Qed.

(** ** How instructions compose *)

Lemma ADD_R (w : Z) (cpu : GPRCPU) :
  is_instr Opcode.ADD w ->
  R (state (execute w cpu)) =
  <[Z.to_nat (decodeRd w) := u16 (reg (decodeRd w) cpu + reg (decodeRs w) cpu)]>
    (R (state cpu)).
Proof.
  intros Hw. rewrite execute_ADD_eq by assumption. cbv zeta.
  match goal with
  | |- context [setAddFlags ?x ?y ?r ?c] =>
      destruct (setAddFlags_frame x y r c) as [f ->]
  end.
  reflexivity.
Qed.

Lemma SUB_R (w : Z) (cpu : GPRCPU) :
  is_instr Opcode.SUB w ->
  R (state (execute w cpu)) =
  <[Z.to_nat (decodeRd w) := u16 (reg (decodeRd w) cpu - reg (decodeRs w) cpu)]>
    (R (state cpu)).
Proof.
  intros Hw. rewrite execute_SUB_eq by assumption. cbv zeta.
  match goal with
  | |- context [setSubFlags ?x ?y ?r ?c] =>
      destruct (setSubFlags_frame x y r c) as [f ->]
  end.
  reflexivity.
Qed.

Lemma SUB_PC (w : Z) (cpu : GPRCPU) :
  is_instr Opcode.SUB w -> PC (state (execute w cpu)) = PC (state cpu).
Proof.
  intros Hw. rewrite execute_SUB_eq by assumption. cbv zeta.
  match goal with
  | |- context [setSubFlags ?x ?y ?r ?c] =>
      destruct (setSubFlags_frame x y r c) as [f ->]
  end.
  reflexivity.
Qed.

(** X14 (compare and branch): a JZ executed right after a SUB jumps to the
    value of its register iff the two operands of the SUB were equal;
    otherwise PC is left where it was. *)
Theorem SUB_then_JZ (w1 w2 : Z) (cpu : GPRCPU) :
  state_ok (state cpu) ->
  is_instr Opcode.SUB w1 -> is_instr Opcode.JZ w2 ->
  let a := reg (decodeRd w1) cpu in
  let b := reg (decodeRs w1) cpu in
  let cpu1 := execute w1 cpu in
  let cpu2 := execute w2 cpu1 in
  (a = b -> PC (state cpu2) = reg (decodeRs w2) cpu1) /\
  (a <> b -> PC (state cpu2) = PC (state cpu)) /\
  R (state cpu2) = R (state cpu1).
Proof.
  intros Hok Hw1 Hw2 a b cpu1 cpu2.
  assert (Ha : 0 <= a < 65536)
    by (apply (reg_is_u16 (decodeRd w1) cpu Hok); apply decodeRd_range).
  assert (Hb : 0 <= b < 65536)
    by (apply (reg_is_u16 (decodeRs w1) cpu Hok); apply decodeRs_range).
  destruct (SUB_effect w1 cpu Hok Hw1) as (_ & HZ & _).
  fold a b cpu1 in HZ.
  assert (E : cpu2 = if flag FLAG_ZERO cpu1
                     then set_PC (reg (decodeRs w2) cpu1) cpu1 else cpu1)
    by (apply execute_JZ_eq; exact Hw2).
  rewrite E, HZ.
  destruct (Z.eqb_spec (u16 (a - b)) 0) as [E0 | E0].
  - assert (a = b).
    { destruct (Z.lt_ge_cases a b).
      - rewrite u16_wrap_down in E0 by lia. lia.
      - rewrite u16_id in E0 by lia. lia. }
    repeat split; [contradiction].
  - assert (a <> b) by (intros ->; apply E0; rewrite Z.sub_diag; reflexivity).
    split; [contradiction |]. split; [| reflexivity].
    intros _. apply SUB_PC. exact Hw1.
Qed.

(** X15 (ADD then SUB): adding Rs to Rd and then subtracting Rs from Rd
    again, for two different registers, gives back the register file as
    it was, also when the addition wrapped around. *)
Theorem ADD_then_SUB_restores (w1 w2 : Z) (cpu : GPRCPU) :
  state_ok (state cpu) ->
  is_instr Opcode.ADD w1 -> is_instr Opcode.SUB w2 ->
  decodeRd w2 = decodeRd w1 -> decodeRs w2 = decodeRs w1 ->
  decodeRd w1 <> decodeRs w1 ->
  R (state (execute w2 (execute w1 cpu))) = R (state cpu).
Proof.
  intros Hok Hw1 Hw2 Hd Hs Hne.
  pose proof (decodeRd_range w1) as Hrd. pose proof (decodeRs_range w1) as Hrs.
  set (a := reg (decodeRd w1) cpu). set (b := reg (decodeRs w1) cpu).
  assert (Ha : is_u16 a) by (apply reg_is_u16; assumption).
  assert (Hlen : (Z.to_nat (decodeRd w1) < length (R (state cpu)))%nat)
    by (destruct Hok as [-> _]; lia).
  rewrite SUB_R by assumption. rewrite Hd, Hs.
  unfold reg. rewrite ADD_R by assumption. fold a b.
  rewrite list_lookup_total_insert_eq by exact Hlen.
  rewrite list_lookup_total_insert_ne by lia.
  change (R (state cpu) !!! Z.to_nat (decodeRs w1)) with b.
  rewrite list_insert_insert_eq.
  replace (u16 (u16 (a + b) - b)) with a.
  - apply list_insert_id. apply list_lookup_lookup_total_lt. exact Hlen.
  - unfold u16. rewrite Zminus_mod_idemp_l.
    replace (a + b - b) with a by lia. symmetry. apply Z.mod_small. exact Ha.
Qed.

Lemma NOT_effect (w : Z) (cpu : GPRCPU) :
  state_ok (state cpu) -> is_instr Opcode.NOT w ->
  reg (decodeRd w) (execute w cpu) = 65535 - reg (decodeRs w) cpu /\
  state_ok (state (execute w cpu)).
Proof.
  intros Hok Hw.
  destruct (result_op_effect (decodeRd w) (u16 (Z.lnot (reg (decodeRs w) cpu)))
              cpu (execute w cpu) Hok (decodeRd_range w) (execute_NOT_eq w cpu Hw))
    as (Hr & _).
  split.
  - rewrite Hr. apply u16_lnot. apply reg_is_u16; [exact Hok | apply decodeRs_range].
  - rewrite execute_NOT_eq by assumption. cbv zeta.
    apply setResultFlags_ok, set_R_ok; [apply u16_is_u16 | exact Hok].
Qed.

(** X16 (NOT twice): complementing Rs into Rd and then complementing Rd in
    place leaves the original value of Rs in Rd. *)
Theorem NOT_twice (w1 w2 : Z) (cpu : GPRCPU) :
  state_ok (state cpu) ->
  is_instr Opcode.NOT w1 -> is_instr Opcode.NOT w2 ->
  decodeRd w2 = decodeRd w1 -> decodeRs w2 = decodeRd w1 ->
  reg (decodeRd w1) (execute w2 (execute w1 cpu)) = reg (decodeRs w1) cpu.
Proof.
  intros Hok Hw1 Hw2 Hd Hs.
  destruct (NOT_effect w1 cpu Hok Hw1) as [H1 Hok1].
  destruct (NOT_effect w2 (execute w1 cpu) Hok1 Hw2) as [H2 _].
  rewrite Hd, Hs in H2. rewrite H2, H1. lia.
Qed.

(** X17 (ADD Rd, Rd is SHL Rd): adding a register to itself leaves the
    machine in exactly the state that shifting it left does: the same
    register file and the same three flags. *)
Theorem ADD_self_is_SHL (w1 w2 : Z) (cpu : GPRCPU) :
  state_ok (state cpu) ->
  is_instr Opcode.ADD w1 -> is_instr Opcode.SHL w2 ->
  decodeRs w1 = decodeRd w1 -> decodeRd w2 = decodeRd w1 ->
  execute w1 cpu = execute w2 cpu.
Proof.
  intros Hok Hw1 Hw2 Hs Hd.
  pose proof (decodeRd_range w1) as Hrd.
  set (v := reg (decodeRd w1) cpu).
  assert (Hv : is_u16 v) by (apply reg_is_u16; assumption).
  assert (Hv' : 0 <= v < 65536) by exact Hv.
  rewrite execute_ADD_eq, execute_SHL_eq by assumption.
  cbv zeta. rewrite Hs, Hd. fold v. unfold setAddFlags.
  rewrite !reg_or_flag_if, !reg_clear_flags.
  rewrite reg_set_R_same by (apply Hok || exact Hrd).
  rewrite (bit15_test v), (bit15_of_u16 v Hv).
  rewrite Z.shiftl_mul_pow2 by lia. change (2 ^ 1) with 2.
  replace (v * 2) with (v + v) by lia.
  replace (v + v >? 0xFFFF) with (32768 <=? v); [reflexivity |].
  destruct (Z.leb_spec 32768 v), (Z.gtb_spec (v + v) 0xFFFF); (reflexivity || lia).
Qed.

(** X18 (STORE then LOAD): a LOAD through an address register that holds
    the address of the preceding STORE reads back the stored value when
    the address is within capacity, and reads 0 when it is beyond. *)
Theorem STORE_then_LOAD (w1 w2 : Z) (cpu : GPRCPU) :
  bus_ok (bus cpu) -> state_ok (state cpu) ->
  is_instr Opcode.STORE w1 -> is_instr Opcode.LOAD w2 ->
  reg (decodeRs w2) cpu = reg (decodeRs w1) cpu ->
  let addr := reg (decodeRs w1) cpu in
  let cpu2 := execute w2 (execute w1 cpu) in
  (addr < MEMORY_SIZE -> reg (decodeRd w2) cpu2 = reg (decodeRd w1) cpu) /\
  (MEMORY_SIZE <= addr -> reg (decodeRd w2) cpu2 = 0).
Proof.
  intros Hbus Hok Hw1 Hw2 Haddr addr cpu2.
  assert (Hu : is_u16 addr) by (apply reg_is_u16; [exact Hok | apply decodeRs_range]).
  assert (E1 : execute w1 cpu =
               set_bus (Bus_write (bus cpu) addr (reg (decodeRd w1) cpu)) cpu)
    by (apply execute_STORE_eq; exact Hw1).
  assert (Hok1 : state_ok (state (execute w1 cpu))) by (rewrite E1; exact Hok).
  destruct (result_op_effect (decodeRd w2)
              (Bus_read (bus (execute w1 cpu)) (reg (decodeRs w2) (execute w1 cpu)))
              (execute w1 cpu) cpu2 Hok1 (decodeRd_range w2)
              (execute_LOAD_eq w2 (execute w1 cpu) Hw2)) as (Hr & _).
  rewrite Hr, E1. cbn [bus set_bus].
  change (reg (decodeRs w2) (set_bus _ cpu)) with (reg (decodeRs w2) cpu).
  rewrite Haddr. fold addr. split; intros Hcap.
  - rewrite Bus_read_in_range, Bus_write_in_range by assumption.
    apply list_lookup_total_insert_eq. destruct Hbus as [-> _].
    unfold is_u16 in Hu. lia.
  - apply Bus_read_beyond. exact Hcap.
Qed.

(** ** Bus: successive writes *)

(** X19 (write after write): a second write to the same address replaces
    the first, writes to two different addresses can be done in either
    order, and no write changes the number of cells. *)
Theorem Bus_write_write (b : Bus) (a a' v v' : Z) :
  0 <= a -> 0 <= a' ->
  Bus_write (Bus_write b a v) a v' = Bus_write b a v' /\
  (a <> a' ->
     Bus_write (Bus_write b a v) a' v' = Bus_write (Bus_write b a' v') a v) /\
  length (memory (Bus_write b a v)) = length (memory b).
Proof.
  intros Ha Ha'. split; [| split].
  - unfold Bus_write. destruct (a <? MEMORY_SIZE); [| reflexivity].
    cbn [memory]. rewrite list_insert_insert_eq. reflexivity.
  - intros Hne. unfold Bus_write.
    destruct (a <? MEMORY_SIZE), (a' <? MEMORY_SIZE); cbn [memory]; try reflexivity.
    rewrite list_insert_insert_ne by lia. reflexivity.
  - apply Bus_write_length.
Qed.

(** ** Construction, reset and the invariants *)

Lemma Bus_new_read (address : Z) :
  is_u16 address -> Bus_read Bus_new address = 0.
Proof.
  intros [Ha _]. unfold Bus_read, Bus_new; cbn [memory].
  destruct (Z.ltb_spec address MEMORY_SIZE); [| reflexivity].
  apply lookup_total_replicate_2. lia.
Qed.

Lemma Bus_new_ok : bus_ok Bus_new.
Proof.
  split; cbn [memory Bus_new].
  - apply length_replicate.
  - apply Forall_replicate. unfold is_u16. lia.
Qed.

Lemma reset_flags_ok (cpu : GPRCPU) : flags_ok (reset cpu).
Proof.
  unfold flags_ok; cbn. split; [lia |].
  apply Z.pow_pos_nonneg; [lia | apply FLAGS_BITS_nonneg].
Qed.

(** X20 (a new machine): a Bus as constructed reads 0 at every address,
    and the machine constructed on a Bus satisfies the three invariants
    (given that the Bus does), is not halted, has PC 0, all three flags
    clear and 0 in each of its eight registers. *)
Theorem new_machine (b : Bus) :
  bus_ok Bus_new /\
  (forall address : Z, is_u16 address -> Bus_read Bus_new address = 0) /\
  (bus_ok b -> machine_ok (GPRCPU_new b)) /\
  bus (GPRCPU_new b) = b /\
  halted (state (GPRCPU_new b)) = false /\
  PC (state (GPRCPU_new b)) = 0 /\
  (forall mask : Z, flag mask (GPRCPU_new b) = false) /\
  (forall i : Z, 0 <= i <= 7 -> reg i (GPRCPU_new b) = 0).
Proof.
  split; [apply Bus_new_ok |]. split; [apply Bus_new_read |].
  split; [intros Hb; split; [exact Hb | split; [apply reset_ok | apply reset_flags_ok]] |].
  split; [reflexivity |]. split; [reflexivity |]. split; [reflexivity |].
  split; [intros mask; reflexivity |].
  intros i Hi. unfold reg, GPRCPU_new, reset; cbn [state R].
  apply lookup_total_replicate_2. lia.
Qed.

(** X21 (reset): [reset] gives the machine that the constructor gives on
    the same Bus, whatever the state was, so it revives a halted machine:
    the next step fetches at address 0.  It does not touch the Bus, and
    resetting twice is resetting once. *)
Theorem reset_restarts (cpu : GPRCPU) :
  reset cpu = GPRCPU_new (bus cpu) /\
  bus (reset cpu) = bus cpu /\
  reset (reset cpu) = reset cpu /\
  state_ok (state (reset cpu)) /\
  flags_ok (reset cpu) /\
  step (reset cpu) =
    (let cpu' := execute (Bus_read (bus cpu) 0) (set_PC 1 (reset cpu)) in
     (cpu', negb (halted (state cpu')))).
Proof.
  split; [reflexivity |]. split; [reflexivity |]. split; [reflexivity |].
  split; [apply reset_ok |]. split; [apply reset_flags_ok |].
  apply step_not_halted. reflexivity.
Qed.

Lemma step_machine_ok (cpu : GPRCPU) :
  machine_ok cpu -> machine_ok (fst (step cpu)).
Proof.
  intros (Hb & Hs & Hf). destruct (step_ok cpu Hb Hs) as [Hb' Hs'].
  split; [exact Hb' | split; [exact Hs' |]].
  unfold step. destruct (halted (state cpu)); cbn [fst]; [exact Hf |].
  apply (execute_flags_kept _ (set_PC _ cpu)). exact Hf.
Qed.

Lemma steps_machine_ok (n : nat) (cpu : GPRCPU) :
  machine_ok cpu -> machine_ok (steps n cpu).
Proof.
  revert cpu. induction n as [| n IH]; intros cpu H; [exact H |].
  cbn [steps]. apply IH, step_machine_ok, H.
Qed.

(** X22 (invariants): the three invariants (a memory of [MEMORY_SIZE]
    16-bit cells; eight 16-bit registers and a 16-bit PC; [FLAGS] within
    its type) hold after any number of steps of a machine for which they
    hold, and for the machine that [run] returns. *)
Theorem invariants_are_kept (cpu : GPRCPU) :
  machine_ok cpu ->
  (forall n : nat, machine_ok (steps n cpu)) /\
  (forall (fuel : nat) (cpu' : GPRCPU) (cycles : Z),
     run fuel cpu = Some (cpu', cycles) -> machine_ok cpu').
Proof.
  intros Hok. split.
  - intros n. apply steps_machine_ok. exact Hok.
  - intros fuel cpu' cycles Hrun.
    apply run_loop_spec in Hrun as (n & _ & _ & _ & -> & _).
    rewrite <- steps_S. apply steps_machine_ok. exact Hok.
Qed.

(** ** Halting *)

Lemma steps_halted (n : nat) (cpu : GPRCPU) :
  halted (state cpu) = true -> steps n cpu = cpu.
Proof.
  intros Hh. induction n as [| n IH]; [reflexivity |].
  cbn [steps]. rewrite step_halted by exact Hh. exact IH.
Qed.

Lemma step_stops_halted (cpu : GPRCPU) :
  snd (step cpu) = false -> halted (state (fst (step cpu))) = true.
Proof.
  unfold step. destruct (halted (state cpu)) eqn:Hh; cbn [fst snd]; [auto |].
  intros H. apply negb_false_iff. exact H.
Qed.

(** X23 (halted is final): once [halted] is set, no number of steps
    changes anything in the machine, and [run] returns at once with a
    count of 0. *)
Theorem halted_is_final (cpu : GPRCPU) :
  halted (state cpu) = true ->
  (forall n : nat, steps n cpu = cpu) /\
  (forall fuel : nat, (1 <= fuel)%nat -> run fuel cpu = Some (cpu, 0)).
Proof.
  intros Hh. split.
  - intros n. apply steps_halted. exact Hh.
  - intros [| fuel] Hfuel; [lia |].
    unfold run. cbn [run_loop]. rewrite step_halted by exact Hh. reflexivity.
Qed.

(** X24 (what [run] returns): when [run] returns, the machine it returns
    is halted; a larger bound on the iterations gives the same machine and
    count; and running the returned machine again returns it unchanged
    with a count of 0. *)
Theorem run_ends_halted (fuel : nat) (cpu cpu' : GPRCPU) (cycles : Z) :
  run fuel cpu = Some (cpu', cycles) ->
  halted (state cpu') = true /\
  (forall fuel' : nat, (fuel <= fuel')%nat -> run fuel' cpu = Some (cpu', cycles)) /\
  (forall fuel' : nat, (1 <= fuel')%nat -> run fuel' cpu' = Some (cpu', 0)).
Proof.
  intros Hrun.
  assert (Hh : halted (state cpu') = true).
  { apply run_loop_spec in Hrun as (n & _ & _ & Hstop & -> & _).
    apply step_stops_halted. exact Hstop. }
  split; [exact Hh |]. split.
  - intros fuel' Hle. apply run_loop_spec.
    apply run_loop_spec in Hrun as (n & Hn & Hrest).
    exists n. split; [lia | exact Hrest].
  - intros [| fuel'] Hfuel; [lia |].
    unfold run. cbn [run_loop]. rewrite step_halted by exact Hh. reflexivity.
Qed.

Lemma set_PC_same (cpu : GPRCPU) : set_PC (PC (state cpu)) cpu = cpu.
Proof. destruct cpu as [b [r p f h]]. reflexivity. Qed.

Lemma run_loop_stuck (fuel : nat) (c : Z) (cpu : GPRCPU) :
  step cpu = (cpu, true) -> run_loop fuel c cpu = None.
Proof.
  intros Hs. revert c. induction fuel as [| fuel IH]; intros c; [reflexivity |].
  cbn [run_loop]. rewrite Hs. apply IH.
Qed.

(** X25 (a program that never halts): when the word at PC is a JMP whose
    register holds PC itself, a step returns the machine as it was and
    reports runnable, so [run] does not return within any number of
    iterations. *)
Theorem self_jump_never_halts (cpu : GPRCPU) :
  halted (state cpu) = false ->
  let w := Bus_read (bus cpu) (PC (state cpu)) in
  is_instr Opcode.JMP w ->
  reg (decodeRs w) cpu = PC (state cpu) ->
  step cpu = (cpu, true) /\
  (forall n : nat, steps n cpu = cpu) /\
  (forall fuel : nat, run fuel cpu = None).
Proof.
  intros Hh w Hw Hself.
  assert (Hs : step cpu = (cpu, true)).
  { rewrite step_not_halted by exact Hh. cbv zeta. fold w.
    rewrite execute_JMP_eq by exact Hw.
    change (reg (decodeRs w) (set_PC _ cpu)) with (reg (decodeRs w) cpu).
    rewrite Hself. change (set_PC ?v (set_PC _ cpu)) with (set_PC v cpu).
    rewrite set_PC_same. cbn [snd fst]. rewrite Hh. reflexivity. }
  split; [exact Hs |]. split.
  - induction n as [| n IH]; [reflexivity |]. cbn [steps]. rewrite Hs. exact IH.
  - intros fuel. apply run_loop_stuck. exact Hs.
Qed.

(** ** Steps that do not jump *)

(** X26 (HALT, NOP and unknown opcodes): the step that executes HALT
    advances PC past the HALT word, sets [halted] and changes nothing
    else; a step that executes NOP, or a word whose opcode field matches
    no enumerator, only advances PC and reports runnable. *)
Theorem HALT_and_NOP_steps (cpu : GPRCPU) :
  halted (state cpu) = false ->
  let w := Bus_read (bus cpu) (PC (state cpu)) in
  let next := set_PC ((PC (state cpu) + 1) mod 65536) cpu in
  (is_instr Opcode.HALT w -> step cpu = (set_halted true next, false)) /\
  (is_instr Opcode.NOP w \/ unknown_opcode w -> step cpu = (next, true)).
Proof.
  intros Hh w next. split.
  - intros Hw. rewrite step_not_halted by exact Hh. cbv zeta. fold w.
    rewrite execute_HALT_eq by exact Hw. reflexivity.
  - intros Hw. rewrite step_not_halted by exact Hh. cbv zeta. fold w.
    assert (E : forall c, execute w c = c)
      by (intros c; destruct Hw;
          [apply execute_NOP_eq | apply execute_unknown_eq]; assumption).
    rewrite E. cbn [halted state set_PC]. rewrite Hh. reflexivity.
Qed.

(** X27 (PC after a step): a step that executes anything but JMP and JZ
    leaves PC one past the fetch address, and at the fetch address 0xFFFF
    the 16-bit PC wraps around to 0. *)
Theorem step_advances_PC (cpu : GPRCPU) :
  halted (state cpu) = false ->
  let pc := PC (state cpu) in
  let w := Bus_read (bus cpu) pc in
  ~ is_instr Opcode.JMP w -> ~ is_instr Opcode.JZ w ->
  PC (state (fst (step cpu))) = (pc + 1) mod 65536 /\
  (0 <= pc < 65535 -> PC (state (fst (step cpu))) = pc + 1) /\
  (pc = 65535 -> PC (state (fst (step cpu))) = 0).
Proof.
  intros Hh pc w Hj Hz.
  assert (E : PC (state (fst (step cpu))) = (pc + 1) mod 65536).
  { rewrite step_not_halted by exact Hh. cbv zeta. cbn [fst]. fold pc. fold w.
    rewrite execute_PC_same by assumption. reflexivity. }
  rewrite E. split; [reflexivity |]. split.
  - intros Hpc. apply Z.mod_small. lia.
  - intros ->. reflexivity.
Qed.

(** ** The instruction word and its fields *)

Lemma decodeOpcode_div (w : Z) : decodeOpcode w = (w / 4096) mod 16.
Proof. rewrite decodeOpcode_bits. reflexivity. Qed.

Lemma decodeRd_div (w : Z) : decodeRd w = (w / 512) mod 8.
Proof. rewrite decodeRd_bits. reflexivity. Qed.

Lemma decodeRs_div (w : Z) : decodeRs w = (w / 64) mod 8.
Proof. rewrite decodeRs_bits. reflexivity. Qed.

Lemma decodeImm9_div (w : Z) : decodeImm9 w = w mod 512.
Proof.
  rewrite decodeImm9_bits. unfold bit_range.
  change (2 ^ 0) with 1. rewrite Z.div_1_r. reflexivity.
Qed.

(** X28 (fields and word): a 16-bit word is put together from its fields
    as opcode * 4096 + Rd * 512 + imm9, and imm9 is Rs * 64 plus the low
    six bits, so that the fields determine one another's word; conversely
    the word put together from any field values within their ranges
    decodes to those values. *)
Theorem decode_reassembles (w : Z) :
  is_u16 w ->
  w = decodeOpcode w * 4096 + decodeRd w * 512 + decodeImm9 w /\
  decodeImm9 w = decodeRs w * 64 + w mod 64 /\
  0 <= decodeOpcode w <= 15 /\
  (forall op rd rs low : Z,
     0 <= op <= 15 -> 0 <= rd <= 7 -> 0 <= rs <= 7 -> 0 <= low <= 63 ->
     let w' := op * 4096 + rd * 512 + rs * 64 + low in
     is_u16 w' /\
     decodeOpcode w' = op /\ decodeRd w' = rd /\ decodeRs w' = rs /\
     decodeImm9 w' = rs * 64 + low).
Proof.
  intros Hw. unfold is_u16 in *. change (2 ^ 16) with 65536 in *.
  rewrite decodeOpcode_div, decodeRd_div, decodeRs_div, decodeImm9_div.
  split; [| split; [| split]].
  - Z.div_mod_to_equations. lia.
  - Z.div_mod_to_equations. lia.
  - Z.div_mod_to_equations. lia.
  - intros op rd rs low Hop Hrd Hrs Hlow.
    rewrite decodeOpcode_div, decodeRd_div, decodeRs_div, decodeImm9_div.
    repeat split; try lia; Z.div_mod_to_equations; lia.
Qed.

(** ** Flags are recomputed by every flag-affecting instruction *)

(** The three flags after a flag-affecting instruction, in terms of the
    value [r] it leaves in Rd and of the operands. *)
Lemma flags_of_result (o : Opcode.t) (w : Z) (cpu : GPRCPU) :
  is_instr o w -> flag_affecting o = true -> state_ok (state cpu) ->
  let cpu' := execute w cpu in
  let r := reg (decodeRd w) cpu' in
  flag FLAG_ZERO cpu' = (r =? 0) /\
  flag FLAG_NEGATIVE cpu' = Z.testbit r 15 /\
  flag FLAG_CARRY cpu' =
    carry_rule o (reg (decodeRd w) cpu) (reg (decodeRs w) cpu).
Proof.
  intros Hw Ho Hok cpu' r.
  pose proof (decodeRd_range w) as Hrd.
  assert (Hres : forall v : Z,
            cpu' = (let cpu1 := set_R (decodeRd w) v cpu in
                    setResultFlags (reg (decodeRd w) cpu1) cpu1) ->
            flag FLAG_ZERO cpu' = (r =? 0) /\
            flag FLAG_NEGATIVE cpu' = Z.testbit r 15 /\
            flag FLAG_CARRY cpu' = false).
  { intros v E.
    destruct (result_op_effect (decodeRd w) v cpu cpu' Hok Hrd E)
      as (Hr & HZ & HN & HC).
    fold r in Hr. rewrite Hr. auto. }
  assert (Hshift : forall (v : Z) (c : bool),
            cpu' =
              (let cpu1 := clear_flags (set_R (decodeRd w) v cpu) in
               let cpu2 := or_flag_if (reg (decodeRd w) cpu1 =? 0) FLAG_ZERO cpu1 in
               let cpu3 := or_flag_if (nonzero (Z.land (reg (decodeRd w) cpu2) 0x8000))
                             FLAG_NEGATIVE cpu2 in
               or_flag_if c FLAG_CARRY cpu3) ->
            flag FLAG_ZERO cpu' = (r =? 0) /\
            flag FLAG_NEGATIVE cpu' = Z.testbit r 15 /\
            flag FLAG_CARRY cpu' = c).
  { intros v c E.
    destruct (shift_effect (decodeRd w) v c cpu cpu' Hok Hrd E)
      as (Hr & HZ & HN & HC).
    fold r in Hr. rewrite Hr. auto. }
  destruct o; try discriminate Ho; cbn [carry_rule].
  - exact (Hres _ (execute_MOVI_eq w cpu Hw)).
  - exact (Hres _ (execute_MOV_eq w cpu Hw)).
  - exact (Hres _ (execute_LOAD_eq w cpu Hw)).
  - (* ADD *)
    set (a := reg (decodeRd w) cpu). set (b := reg (decodeRs w) cpu).
    assert (Hr : r = u16 (a + b)).
    { subst r cpu'. rewrite execute_ADD_eq by exact Hw. cbv zeta. fold a b.
      destruct (setAddFlags_frame a b (u16 (a + b))
                  (set_R (decodeRd w) (u16 (a + b)) cpu)) as [f ->].
      rewrite reg_set_FLAGS. apply reg_set_R_same; [apply Hok | exact Hrd]. }
    rewrite Hr. subst cpu'. rewrite execute_ADD_eq by exact Hw. cbv zeta. fold a b.
    rewrite <- bit15_test. apply setAddFlags_flags.
  - (* SUB *)
    set (a := reg (decodeRd w) cpu). set (b := reg (decodeRs w) cpu).
    assert (Hr : r = u16 (a - b)).
    { subst r cpu'. rewrite execute_SUB_eq by exact Hw. cbv zeta. fold a b.
      destruct (setSubFlags_frame a b (u16 (a - b))
                  (set_R (decodeRd w) (u16 (a - b)) cpu)) as [f ->].
      rewrite reg_set_FLAGS. apply reg_set_R_same; [apply Hok | exact Hrd]. }
    rewrite Hr. subst cpu'. rewrite execute_SUB_eq by exact Hw. cbv zeta. fold a b.
    rewrite <- bit15_test. apply setSubFlags_flags.
  - exact (Hres _ (execute_AND_eq w cpu Hw)).
  - exact (Hres _ (execute_OR_eq w cpu Hw)).
  - exact (Hres _ (execute_XOR_eq w cpu Hw)).
  - exact (Hres _ (execute_NOT_eq w cpu Hw)).
  - rewrite <- (bit15_test (reg (decodeRd w) cpu)).
    exact (Hshift (u16 (Z.shiftl (reg (decodeRd w) cpu) 1))
             (nonzero (Z.land (reg (decodeRd w) cpu) 0x8000))
             (execute_SHL_eq w cpu Hw)).
  - rewrite <- (bit0_test (reg (decodeRd w) cpu)).
    exact (Hshift (u16 (Z.shiftr (reg (decodeRd w) cpu) 1))
             (nonzero (Z.land (reg (decodeRd w) cpu) 1))
             (execute_SHR_eq w cpu Hw)).
Qed.

(** C6: a flag-affecting instruction clears ZERO, CARRY and NEGATIVE and
    computes them anew from this instruction alone.  Whatever value FLAGS
    had before the instruction, each of the three flags comes out the
    same, so that no flag is carried over from an earlier instruction; and
    what comes out is: ZERO set iff the value left in Rd is 0, NEGATIVE
    set iff bit 15 of that value is set, CARRY as the operation's own rule
    gives it from the operands (ADD, SUB, SHL, SHR) and clear after MOVI,
    MOV, LOAD, AND, OR, XOR and NOT. *)
Theorem flags_recomputed (o : Opcode.t) (w : Z) (cpu : GPRCPU) :
  is_instr o w ->
  (flag_affecting o = true ->
     (forall mask : Z, is_mask mask ->
        flag mask (execute w cpu) = flag mask (execute w (clear_flags cpu))) /\
     (forall (f mask : Z), is_mask mask ->
        flag mask (execute w (set_FLAGS f cpu)) = flag mask (execute w cpu))) /\
  (zn_only o = true -> flag FLAG_CARRY (execute w cpu) = false) /\
  (flag_affecting o = true -> state_ok (state cpu) ->
     let cpu' := execute w cpu in
     let r := reg (decodeRd w) cpu' in
     (flag FLAG_ZERO cpu' = true <-> r = 0) /\
     (flag FLAG_NEGATIVE cpu' = true <-> Z.testbit r 15 = true) /\
     flag FLAG_CARRY cpu' =
       carry_rule o (reg (decodeRd w) cpu) (reg (decodeRs w) cpu)).
Proof.
  intros Hw. pose proof (is_instr_as_Opcode _ _ Hw) as Hw'.
  assert (Hindep : flag_affecting o = true ->
            forall (f mask : Z), is_mask mask ->
              flag mask (execute w (set_FLAGS f cpu)) = flag mask (execute w cpu)).
  { intros Ho f mask Hm. unfold execute. rewrite Hw'.
    destruct o; try discriminate Ho; cbv zeta;
      unfold setResultFlags, setAddFlags, setSubFlags;
      destruct Hm as [-> | [-> | ->]]; flag_tests;
      rewrite ?reg_or_flag_if, ?reg_clear_flags; reflexivity. }
  split; [intros Ho; split | split; [intros Ho | intros Ho Hok]].
  - intros mask Hm. symmetry. apply (Hindep Ho _ mask Hm).
  - exact (Hindep Ho).
  - unfold execute. rewrite Hw'.
    destruct o; try discriminate Ho; cbv zeta; apply setResultFlags_flags.
  - destruct (flags_of_result o w cpu Hw Ho Hok) as (HZ & HN & HC).
    cbv zeta. rewrite HZ, HN. split; [apply Z.eqb_eq |]. split; [reflexivity | exact HC].
Qed.

(** ** Fetching beyond capacity *)

(** X29 (fetch beyond capacity): when PC points beyond the capacity of the
    Bus, the step executes the word 0, whose fields are all 0: the
    operation numbered 0, if there is one, on register 0. *)
Theorem fetch_beyond_capacity (cpu : GPRCPU) :
  halted (state cpu) = false ->
  MEMORY_SIZE <= PC (state cpu) ->
  fst (step cpu) = execute 0 (set_PC ((PC (state cpu) + 1) mod 65536) cpu) /\
  decodeOpcode 0 = 0 /\ decodeRd 0 = 0 /\ decodeRs 0 = 0 /\ decodeImm9 0 = 0.
Proof.
  intros Hh Hpc. split; [| repeat split].
  rewrite step_not_halted by exact Hh. cbv zeta. cbn [fst].
  rewrite Bus_read_beyond by exact Hpc. reflexivity.
Qed.

(** ** The driver *)

Lemma stoul_in_range (negative : bool) (magnitude : N) :
  16 <= ULONG_BITS -> Z.of_N magnitude < 2 ^ ULONG_BITS ->
  exists v : Z,
    stoul negative magnitude = Some v /\
    0 <= v < 2 ^ ULONG_BITS /\
    u16 v = (if negative then - Z.of_N magnitude else Z.of_N magnitude) mod 65536.
Proof.
  intros Hw Hm. pose proof (N2Z.is_nonneg magnitude) as H0.
  unfold stoul. cbv zeta.
  destruct (Z.ltb_spec (Z.of_N magnitude) (2 ^ ULONG_BITS)) as [_ | Hge]; [| lia].
  assert (Hpos : 0 < 2 ^ ULONG_BITS) by (apply Z.pow_pos_nonneg; lia).
  destruct negative; eexists; (split; [reflexivity |]).
  - split; [apply Z.mod_pos_bound; exact Hpos |].
    unfold u16. rewrite Z.mod_mod_divide; [reflexivity |].
    exists (2 ^ (ULONG_BITS - 16)). rewrite <- Z.pow_add_r by lia.
    f_equal. lia.
  - split; [lia | reflexivity].
Qed.

(** X30 (operand placement in main): a line whose number is beyond
    [unsigned long], or that has no number, ends the program and nothing
    more is stored; otherwise the number, negated within [unsigned long]
    after a minus sign, is cut to 16 bits and stored, the first at 0x100
    and the second at 0x101; every other cell of the assembled image, the
    program included, stays as it was, and the memory keeps its invariant.
    With an empty first line the image is left untouched, and with an
    empty second line cell 0x101 is. *)
Theorem place_operands_effect (image : Bus) (first second : input_line) :
  bus_ok image -> 0x101 < MEMORY_SIZE -> 16 <= ULONG_BITS ->
  (forall (negative : bool) (magnitude : N),
     (2 ^ ULONG_BITS <= Z.of_N magnitude ->
        operand (Number negative magnitude) = None) /\
     (Z.of_N magnitude < 2 ^ ULONG_BITS ->
        exists v : Z,
          operand (Number negative magnitude) = Some v /\
          v mod 65536 =
            (if negative then - Z.of_N magnitude else Z.of_N magnitude) mod 65536)) /\
  operand NoNumber = None /\
  (first = Empty -> place_operands image first second = Some image) /\
  (first <> Empty -> operand first = None ->
     place_operands image first second = None) /\
  (forall a : Z, operand first = Some a ->
     second <> Empty -> operand second = None ->
     place_operands image first second = None) /\
  (forall a : Z, operand first = Some a ->
     second = Empty \/ (exists c : Z, operand second = Some c) ->
     exists b : Bus,
       place_operands image first second = Some b /\
       bus_ok b /\
       Bus_read b 0x100 = a mod 65536 /\
       Bus_read b 0x101 =
         match operand second with
         | Some c => c mod 65536
         | None => Bus_read image 0x101
         end /\
       (forall address : Z,
          is_u16 address -> address <> 0x100 -> address <> 0x101 ->
          Bus_read b address = Bus_read image address)).
Proof.
  intros Himg Hcap Hw.
  split.
  { intros negative magnitude. split.
    - intros Hbig. cbn [operand]. unfold stoul. cbv zeta.
      destruct (Z.ltb_spec (Z.of_N magnitude) (2 ^ ULONG_BITS)); [lia | reflexivity].
    - intros Hm. destruct (stoul_in_range negative magnitude Hw Hm) as (v & E & _ & Hv).
      exists v. split; [exact E | exact Hv]. }
  split; [reflexivity |].
  split; [intros ->; reflexivity |].
  split.
  { intros Hne Hop. unfold place_operands. rewrite Hop.
    destruct first; [contradiction | reflexivity | reflexivity]. }
  assert (Hfirst : forall a : Z, operand first = Some a ->
            exists negative magnitude, first = Number negative magnitude).
  { intros a Ha. destruct first; try discriminate Ha. eauto. }
  split.
  { intros a Ha Hne Hop. destruct (Hfirst a Ha) as (n1 & m1 & ->).
    unfold place_operands. rewrite Ha, Hop.
    destruct second; [contradiction | reflexivity | reflexivity]. }
  intros a Ha Hsecond. destruct (Hfirst a Ha) as (n1 & m1 & ->).
  assert (Hlen : (Z.to_nat 0x101 < length (memory image))%nat)
    by (destruct Himg as [-> _]; lia).
  assert (H1 : bus_ok (Bus_write image 0x100 (u16 a)))
    by (apply Bus_write_ok; [exact Himg | apply u16_is_u16]).
  assert (R1 : Bus_read (Bus_write image 0x100 (u16 a)) 0x100 = a mod 65536).
  { rewrite Bus_read_in_range, Bus_write_in_range by lia.
    apply list_lookup_total_insert_eq. lia. }
  unfold place_operands. rewrite Ha. cbv zeta.
  destruct Hsecond as [-> | [c Hc]].
  - exists (Bus_write image 0x100 (u16 a)).
    split; [reflexivity |]. split; [exact H1 |]. split; [exact R1 |].
    split; [cbn [operand]; apply Bus_read_write_other; lia |].
    intros address [Hadr _] Hn0 Hn1. apply Bus_read_write_other; lia.
  - assert (Hs : exists n2 m2, second = Number n2 m2)
      by (destruct second; try discriminate Hc; eauto).
    destruct Hs as (n2 & m2 & ->). rewrite Hc.
    exists (Bus_write (Bus_write image 0x100 (u16 a)) 0x101 (u16 c)).
    split; [reflexivity |].
    split; [apply Bus_write_ok; [exact H1 | apply u16_is_u16] |].
    split; [rewrite Bus_read_write_other by lia; exact R1 |].
    split.
    { rewrite Bus_read_in_range, Bus_write_in_range by lia.
      apply list_lookup_total_insert_eq. rewrite Bus_write_length. exact Hlen. }
    intros address [Hadr _] Hn0 Hn1.
    rewrite !Bus_read_write_other by lia. reflexivity.
Qed.

End GPR.

(** * The header instance meets the assumptions *)

Lemma Sample_masks_ok :
  flag_masks_ok Sample.FLAG_ZERO Sample.FLAG_CARRY Sample.FLAG_NEGATIVE
    Sample.FLAGS_BITS.
Proof. unfold flag_masks_ok. repeat split; reflexivity. Qed.

Lemma Sample_distinct : opcode_values_distinct Sample.opcode_value.
Proof. intros o o' H. destruct o, o'; (reflexivity || discriminate H). Qed.

Lemma Sample_load_ok (prog : list Z) :
  Forall is_u16 prog -> Z.of_nat (length prog) <= Sample.MEMORY_SIZE ->
  bus_ok Sample.MEMORY_SIZE (Sample.load prog).
Proof.
  intros Hprog Hlen. unfold bus_ok, Sample.load; cbn [memory]. split.
  - rewrite length_app, length_replicate. lia.
  - apply Forall_app. split; [exact Hprog |].
    apply Forall_replicate. unfold is_u16. lia.
Qed.

Lemma Sample_machine_ok (prog : list Z) (r0 r1 flags : Z) (h : bool) :
  is_u16 r0 -> is_u16 r1 -> state_ok (state (Sample.machine prog r0 r1 flags h)).
Proof.
  intros H0 H1. unfold state_ok; cbn. split; [reflexivity |].
  split; [| unfold is_u16; lia].
  repeat (apply Forall_cons; split; [first [assumption | unfold is_u16; lia] |]).
  apply Forall_nil_2.
Qed.

(** * The theorems at work on concrete machines *)

Local Abbreviation sample_execute :=
  (execute Sample.MEMORY_SIZE Sample.FLAG_ZERO Sample.FLAG_CARRY
     Sample.FLAG_NEGATIVE Sample.FLAGS_BITS Sample.opcode_value).
Local Abbreviation sample_step :=
  (step Sample.MEMORY_SIZE Sample.FLAG_ZERO Sample.FLAG_CARRY
     Sample.FLAG_NEGATIVE Sample.FLAGS_BITS Sample.opcode_value).
Local Abbreviation sample_run :=
  (run Sample.MEMORY_SIZE Sample.FLAG_ZERO Sample.FLAG_CARRY
     Sample.FLAG_NEGATIVE Sample.FLAGS_BITS Sample.opcode_value Sample.SIZE_BITS).
Local Abbreviation sample_read := (Bus_read Sample.MEMORY_SIZE).
Local Abbreviation sample_write := (Bus_write Sample.MEMORY_SIZE).

(** ADD R0, R1 with R0 = 0xFFFF and R1 = 1. *)
Lemma ADD_semantics_witness :
  let cpu := Sample.machine [] 0xFFFF 0x0001 0 false in
  let cpu' := sample_execute Sample.ADD_R0_R1 cpu in
  state_ok (state cpu) /\
  is_instr Sample.opcode_value Opcode.ADD Sample.ADD_R0_R1 /\
  reg 0 cpu' = 0x0000 /\
  flag Sample.FLAG_ZERO cpu' = true /\
  flag Sample.FLAG_CARRY cpu' = true /\
  flag Sample.FLAG_NEGATIVE cpu' = false.
Proof.
  intros cpu cpu'.
  assert (Hok : state_ok (state cpu))
    by (apply Sample_machine_ok; unfold is_u16; lia).
  split; [exact Hok |]. split; [reflexivity |].
  destruct (ADD_semantics Sample.MEMORY_SIZE _ _ _ _ _ Sample_masks_ok Sample_distinct
              Sample.ADD_R0_R1 cpu Hok eq_refl) as (_ & _ & _ & _ & H).
  exact (H eq_refl eq_refl).
Defined.

(** SUB R0, R1 with R0 = 0 and R1 = 1. *)
Lemma SUB_semantics_witness :
  let cpu := Sample.machine [] 0 1 0 false in
  let cpu' := sample_execute Sample.SUB_R0_R1 cpu in
  state_ok (state cpu) /\
  is_instr Sample.opcode_value Opcode.SUB Sample.SUB_R0_R1 /\
  reg 0 cpu' = 0xFFFF /\
  flag Sample.FLAG_CARRY cpu' = false.
Proof.
  intros cpu cpu'.
  assert (Hok : state_ok (state cpu))
    by (apply Sample_machine_ok; unfold is_u16; lia).
  split; [exact Hok |]. split; [reflexivity |].
  destruct (SUB_semantics Sample.MEMORY_SIZE _ _ _ _ _ Sample_masks_ok Sample_distinct
              Sample.SUB_R0_R1 cpu Hok eq_refl) as (_ & _ & _ & _ & _ & H).
  exact (H eq_refl eq_refl).
Defined.

(** SHL R0 with R0 = 0x8000. *)
Lemma SHL_SHR_semantics_witness :
  let cpu := Sample.machine [] 0x8000 0 0 false in
  let cpu' := sample_execute Sample.SHL_R0 cpu in
  state_ok (state cpu) /\
  is_instr Sample.opcode_value Opcode.SHL Sample.SHL_R0 /\
  reg 0 cpu' = 0x0000 /\
  flag Sample.FLAG_CARRY cpu' = true /\
  flag Sample.FLAG_ZERO cpu' = true.
Proof.
  intros cpu cpu'.
  assert (Hok : state_ok (state cpu))
    by (apply Sample_machine_ok; unfold is_u16; lia).
  split; [exact Hok |]. split; [reflexivity |].
  destruct (SHL_SHR_semantics Sample.MEMORY_SIZE _ _ _ _ _ Sample_masks_ok
              Sample_distinct Sample.SHL_R0 cpu Hok) as [H _].
  destruct (H eq_refl) as (_ & _ & _ & _ & H').
  exact (H' eq_refl).
Defined.

(** MOV R0, R1 executed with all three flags set beforehand and R1 = 0:
    CARRY and NEGATIVE come out clear and ZERO set. *)
Lemma flags_recomputed_witness :
  let cpu := Sample.machine [] 9 0 7 false in
  let cpu' := sample_execute Sample.MOV_R0_R1 cpu in
  is_instr Sample.opcode_value Opcode.MOV Sample.MOV_R0_R1 /\
  state_ok (state cpu) /\
  (flag Sample.FLAG_CARRY cpu = true /\ flag Sample.FLAG_NEGATIVE cpu = true) /\
  flag Sample.FLAG_CARRY cpu' = false /\
  flag Sample.FLAG_ZERO cpu' = true /\
  flag Sample.FLAG_NEGATIVE cpu' = false.
Proof.
  intros cpu cpu'.
  assert (Hok : state_ok (state cpu))
    by (apply Sample_machine_ok; unfold is_u16; lia).
  split; [reflexivity |]. split; [exact Hok |].
  split; [split; reflexivity |].
  destruct (flags_recomputed Sample.MEMORY_SIZE _ _ _ _ _ Sample_masks_ok
              Sample_distinct Opcode.MOV Sample.MOV_R0_R1 cpu eq_refl)
    as (_ & HC & H).
  destruct (H eq_refl Hok) as (HZ & HN & _).
  assert (Hr : reg (decodeRd Sample.MOV_R0_R1) cpu' = 0) by reflexivity.
  split; [exact (HC eq_refl) |].
  split; [apply HZ; exact Hr |].
  apply not_true_is_false. intros Hneg. apply HN in Hneg.
  exact (Bool.diff_false_true Hneg).
Defined.

(** A step of a halted machine, and a step that executes HALT. *)
Lemma step_reports_runnable_witness :
  let stopped := Sample.machine [Sample.MOVI_R0_5] 0 0 0 true in
  let cpu := Sample.machine [Sample.HALT_] 0 0 0 false in
  sample_step stopped = (stopped, false) /\
  snd (sample_step cpu) = false.
Proof.
  intros stopped cpu. split.
  - exact (proj1 (step_reports_runnable Sample.MEMORY_SIZE Sample.FLAG_ZERO
                    Sample.FLAG_CARRY Sample.FLAG_NEGATIVE Sample.FLAGS_BITS
                    Sample.opcode_value Sample_distinct stopped) eq_refl).
  - destruct (step_reports_runnable Sample.MEMORY_SIZE Sample.FLAG_ZERO
                Sample.FLAG_CARRY Sample.FLAG_NEGATIVE Sample.FLAGS_BITS
                Sample.opcode_value Sample_distinct cpu) as [_ H].
    apply not_true_is_false. intros Hrun.
    apply (proj1 (H eq_refl) Hrun). vm_compute. reflexivity.
Defined.

(** JZ R1 at address 0 with R1 = 0x0123: taken with ZERO set, not taken
    with ZERO clear. *)
Lemma step_fetch_advance_jump_witness :
  let taken := Sample.machine [Sample.JZ_R1] 0 0x0123 Sample.FLAG_ZERO false in
  let skipped := Sample.machine [Sample.JZ_R1] 0 0x0123 0 false in
  PC (state (fst (sample_step taken))) = 0x0123 /\
  PC (state (fst (sample_step skipped))) = 1 /\
  fst (sample_step skipped) = set_PC 1 skipped.
Proof.
  intros taken skipped.
  destruct (step_fetch_advance_jump Sample.MEMORY_SIZE Sample.FLAG_ZERO
              Sample.FLAG_CARRY Sample.FLAG_NEGATIVE Sample.FLAGS_BITS
              Sample.opcode_value Sample_distinct taken eq_refl)
    as (_ & _ & _ & Ht & _).
  destruct (step_fetch_advance_jump Sample.MEMORY_SIZE Sample.FLAG_ZERO
              Sample.FLAG_CARRY Sample.FLAG_NEGATIVE Sample.FLAGS_BITS
              Sample.opcode_value Sample_distinct skipped eq_refl)
    as (_ & _ & _ & _ & Hs).
  assert (Hw : is_instr Sample.opcode_value Opcode.JZ
                 (sample_read (bus taken) (PC (state taken))))
    by (vm_compute; reflexivity).
  split; [exact (proj1 (Ht Hw eq_refl)) |].
  split; [exact (proj1 (Hs Hw eq_refl)) | exact (proj2 (Hs Hw eq_refl))].
Defined.

(** STORE R0, (R1) at address 0 with R0 = 0xBEEF and R1 = 0x0102. *)
Lemma memory_written_only_by_STORE_witness :
  let cpu := Sample.machine [Sample.STORE_R0_R1] 0xBEEF 0x0102 0 false in
  let cpu' := fst (sample_step cpu) in
  bus_ok Sample.MEMORY_SIZE (bus cpu) /\
  state_ok (state cpu) /\
  memory (bus cpu') !! 0x0102%nat = Some 0xBEEF /\
  (forall i : nat, i <> 0x0102%nat -> memory (bus cpu') !! i = memory (bus cpu) !! i).
Proof.
  intros cpu cpu'.
  assert (Hbus : bus_ok Sample.MEMORY_SIZE (bus cpu)).
  { apply Sample_load_ok.
    - repeat constructor; vm_compute; congruence.
    - vm_compute. congruence. }
  assert (Hok : state_ok (state cpu))
    by (apply Sample_machine_ok; unfold is_u16; lia).
  split; [exact Hbus |]. split; [exact Hok |].
  destruct (memory_written_only_by_STORE Sample.MEMORY_SIZE Sample.FLAG_ZERO
              Sample.FLAG_CARRY Sample.FLAG_NEGATIVE Sample.FLAGS_BITS
              Sample.opcode_value Sample_distinct cpu Hbus Hok) as (_ & _ & H).
  assert (Hw : is_instr Sample.opcode_value Opcode.STORE
                 (sample_read (bus cpu) (PC (state cpu))))
    by (vm_compute; reflexivity).
  destruct (H eq_refl Hw) as (_ & Hother & Hcell & _).
  split; [apply Hcell; reflexivity | exact Hother].
Defined.

(** The program MOVI R0, 5; HALT run from the reset state. *)
Lemma run_counts_runnable_steps_witness :
  let cpu := Sample.machine [Sample.MOVI_R0_5; Sample.HALT_] 0xAAAA 0xBBBB 7 true in
  exists cpu' : GPRCPU,
    sample_run 2 (reset cpu) = Some (cpu', 1) /\
    reg 0 cpu' = 5 /\
    halted (state cpu') = true.
Proof.
  intros cpu.
  destruct (run_counts_runnable_steps Sample.MEMORY_SIZE Sample.FLAG_ZERO
              Sample.FLAG_CARRY Sample.FLAG_NEGATIVE Sample.FLAGS_BITS
              Sample.opcode_value Sample.SIZE_BITS Sample_distinct)
    as (_ & _ & _ & H).
  assert (Hbus : bus_ok Sample.MEMORY_SIZE (bus cpu)).
  { apply Sample_load_ok.
    - repeat constructor; vm_compute; congruence.
    - vm_compute. congruence. }
  destruct (H cpu Sample.MOVI_R0_5 Sample.HALT_ 2%nat Hbus ltac:(vm_compute; congruence)
              eq_refl eq_refl eq_refl eq_refl eq_refl eq_refl (le_n 2))
    as (cpu' & Hrun & Hr0 & Hh & _).
  exists cpu'. repeat split; assumption.
Defined.

(** The word 0x1005 and a word with the same opcode bits. *)
Lemma decode_extracts_bit_ranges_witness :
  decodeOpcode 0x1005 = 1 /\ decodeRd 0x1005 = 0 /\ decodeImm9 0x1005 = 5 /\
  decodeOpcode 0x1FFF = decodeOpcode 0x1005.
Proof.
  destruct (decode_extracts_bit_ranges 0x1005) as ((Hop & Hrd & _ & Himm) & Hsame & _).
  split; [rewrite Hop; reflexivity |].
  split; [rewrite Hrd; reflexivity |].
  split; [rewrite Himm; reflexivity |].
  apply (Hsame 0x1FFF).
  intros i Hi.
  assert (Hc : i = 12 \/ i = 13 \/ i = 14 \/ i = 15) by lia.
  destruct Hc as [-> | [-> | [-> | ->]]]; reflexivity.
Defined.

(** A write to cell 0x0102 of an empty 64K memory, and a read beyond a
    four-word memory. *)
Lemma Bus_read_write_contract_witness :
  let b := Sample.load [] in
  bus_ok Sample.MEMORY_SIZE b /\
  sample_read (sample_write b 0x0102 7) 0x0102 = 7 /\
  sample_read (sample_write b 0x0102 7) 0x0103 = sample_read b 0x0103 /\
  Bus_read 4 (mkBus [1; 2; 3; 4]) 9 = 0 /\
  Bus_write 4 (mkBus [1; 2; 3; 4]) 9 7 = mkBus [1; 2; 3; 4].
Proof.
  intros b.
  assert (Hbus : bus_ok Sample.MEMORY_SIZE b)
    by (apply Sample_load_ok; [constructor | vm_compute; congruence]).
  assert (Hsmall : bus_ok 4 (mkBus [1; 2; 3; 4])).
  { split; [reflexivity |]. repeat constructor; vm_compute; congruence. }
  assert (Ha : is_u16 0x0102) by (unfold is_u16; lia).
  assert (H9 : is_u16 9) by (unfold is_u16; lia).
  destruct (Bus_read_write_contract Sample.MEMORY_SIZE b 0x0102 7 Hbus Ha)
    as (_ & _ & Hin & _ & Hother).
  destruct (Bus_read_write_contract 4 (mkBus [1; 2; 3; 4]) 9 7 Hsmall H9)
    as (_ & Hout & _ & Hdrop & _).
  split; [exact Hbus |].
  split; [apply Hin; reflexivity |].
  split; [apply Hother; [unfold is_u16; lia | lia] |].
  split; [apply Hout; lia | apply Hdrop; lia].
Defined.

(** * The further properties at work on concrete machines *)

Ltac sample_state_ok := apply Sample_machine_ok; unfold is_u16; lia.

Ltac sample_bus_ok :=
  apply Sample_load_ok;
  [ repeat (apply Forall_cons; split; [unfold is_u16; vm_compute; split; congruence |]);
    apply Forall_nil_2
  | vm_compute; congruence ].

Ltac sample_flags_ok := vm_compute; split; congruence.

(** MOVI R0, 5. *)
Lemma MOVI_semantics_witness :
  let cpu := Sample.machine [] 7 7 0 false in
  let cpu' := sample_execute Sample.MOVI_R0_5 cpu in
  reg 0 cpu' = 5 /\ flag Sample.FLAG_NEGATIVE cpu' = false.
Proof.
  intros cpu cpu'.
  assert (Hok : state_ok (state cpu)) by sample_state_ok.
  destruct (MOVI_semantics Sample.MEMORY_SIZE _ _ _ _ _ Sample_masks_ok Sample_distinct
              Sample.MOVI_R0_5 cpu Hok eq_refl) as (Hr & _ & _ & HN & _).
  exact (conj Hr HN).
Defined.

(** MOV R0, R1 with R1 = 0x8001. *)
Lemma MOV_semantics_witness :
  let cpu := Sample.machine [] 0 0x8001 0 false in
  let cpu' := sample_execute Sample.MOV_R0_R1 cpu in
  reg 0 cpu' = 0x8001 /\ flag Sample.FLAG_NEGATIVE cpu' = true.
Proof.
  intros cpu cpu'.
  assert (Hok : state_ok (state cpu)) by sample_state_ok.
  destruct (MOV_semantics Sample.MEMORY_SIZE _ _ _ _ _ Sample_masks_ok Sample_distinct
              Sample.MOV_R0_R1 cpu Hok eq_refl) as (Hr & _ & HN & _).
  exact (conj Hr HN).
Defined.

(** LOAD R0, (R1) with R1 = 1 on a memory that holds 0x1234 there. *)
Lemma LOAD_semantics_witness :
  let cpu := Sample.machine [0; 0x1234] 0 1 0 false in
  let cpu' := sample_execute Demo.LOAD_R0_R1 cpu in
  memory (bus cpu) !! 1%nat = Some (reg 0 cpu') /\ bus cpu' = bus cpu.
Proof.
  intros cpu cpu'.
  assert (Hbus : bus_ok Sample.MEMORY_SIZE (bus cpu)) by sample_bus_ok.
  assert (Hok : state_ok (state cpu)) by sample_state_ok.
  destruct (LOAD_semantics Sample.MEMORY_SIZE _ _ _ _ _ Sample_masks_ok Sample_distinct
              Demo.LOAD_R0_R1 cpu Hbus Hok eq_refl) as (Hin & _ & _ & _ & _ & _ & Hb).
  split; [apply Hin; reflexivity | exact Hb].
Defined.

(** AND R0, R1 with R0 = 0x00F0 and R1 = 0x0F0F. *)
Lemma logic_semantics_witness :
  let cpu := Sample.machine [] 0x00F0 0x0F0F 0 false in
  let cpu' := sample_execute Demo.AND_R0_R1 cpu in
  reg 0 cpu' = 0 /\ flag Sample.FLAG_ZERO cpu' = true.
Proof.
  intros cpu cpu'.
  assert (Hok : state_ok (state cpu)) by sample_state_ok.
  destruct (logic_semantics Sample.MEMORY_SIZE _ _ _ _ _ Sample_masks_ok Sample_distinct
              Demo.AND_R0_R1 cpu Hok) as (H & _).
  destruct (H eq_refl) as (Hr & HZ & _).
  split; [exact Hr | apply HZ; exact Hr].
Defined.

(** NOT R0, R1 with R1 = 0x00FF. *)
Lemma NOT_semantics_witness :
  let cpu := Sample.machine [] 0 0x00FF 0 false in
  let cpu' := sample_execute Demo.NOT_R0_R1 cpu in
  reg 0 cpu' = 0xFF00 /\ flag Sample.FLAG_NEGATIVE cpu' = true.
Proof.
  intros cpu cpu'.
  assert (Hok : state_ok (state cpu)) by sample_state_ok.
  destruct (NOT_semantics Sample.MEMORY_SIZE _ _ _ _ _ Sample_masks_ok Sample_distinct
              Demo.NOT_R0_R1 cpu Hok eq_refl) as (Hr & _ & _ & HN & _).
  exact (conj Hr HN).
Defined.

(** ADD R0, R1 leaves R1 alone. *)
Lemma execute_changes_only_Rd_witness :
  let cpu := Sample.machine [] 3 4 0 false in
  reg 1 (sample_execute Sample.ADD_R0_R1 cpu) = 4.
Proof.
  intros cpu.
  destruct (execute_changes_only_Rd Sample.MEMORY_SIZE Sample.FLAG_ZERO
              Sample.FLAG_CARRY Sample.FLAG_NEGATIVE Sample.FLAGS_BITS
              Sample.opcode_value Sample.ADD_R0_R1 cpu) as (H & _).
  apply (H 1); [lia | vm_compute; congruence].
Defined.

(** ADD R0, R1 leaves PC alone. *)
Lemma execute_PC_halted_frame_witness :
  let cpu := Sample.machine [] 3 4 0 false in
  PC (state (sample_execute Sample.ADD_R0_R1 cpu)) = 0.
Proof.
  intros cpu.
  destruct (execute_PC_halted_frame Sample.MEMORY_SIZE Sample.FLAG_ZERO
              Sample.FLAG_CARRY Sample.FLAG_NEGATIVE Sample.FLAGS_BITS
              Sample.opcode_value Sample.ADD_R0_R1 cpu) as (H & _).
  apply H; vm_compute; congruence.
Defined.

(** STORE R0, (R1) leaves FLAGS alone. *)
Lemma execute_FLAGS_frame_witness :
  let cpu := Sample.machine [] 3 4 7 false in
  FLAGS (state (sample_execute Sample.STORE_R0_R1 cpu)) = 7.
Proof.
  intros cpu.
  apply (execute_FLAGS_frame Sample.MEMORY_SIZE Sample.FLAG_ZERO
           Sample.FLAG_CARRY Sample.FLAG_NEGATIVE Sample.FLAGS_BITS
           Sample.opcode_value Sample.STORE_R0_R1 cpu).
  intros o Ho. destruct o; (reflexivity || (vm_compute in Ho; discriminate Ho)).
Defined.

(** MOVI R0, 5 with FLAGS = 0xFF keeps bit 3 of FLAGS. *)
Lemma execute_keeps_spare_flag_bits_witness :
  let cpu := Sample.machine [] 0 0 0xFF false in
  Z.testbit (FLAGS (state (sample_execute Sample.MOVI_R0_5 cpu))) 3 = true.
Proof.
  intros cpu.
  assert (Hf : flags_ok Sample.FLAGS_BITS cpu) by sample_flags_ok.
  destruct (execute_keeps_spare_flag_bits Sample.MEMORY_SIZE _ _ _ _
              Sample.opcode_value Sample_masks_ok Sample.MOVI_R0_5 cpu Hf) as (_ & H).
  rewrite (H 3); [reflexivity | lia | repeat split].
Defined.

(** SUB R0, R1 with equal operands sets ZERO, hence not NEGATIVE. *)
Lemma zero_and_negative_exclude_witness :
  let cpu := Sample.machine [] 9 9 0 false in
  let cpu' := sample_execute Sample.SUB_R0_R1 cpu in
  ~ (flag Sample.FLAG_ZERO cpu' = true /\ flag Sample.FLAG_NEGATIVE cpu' = true).
Proof.
  intros cpu cpu'.
  exact (zero_and_negative_exclude Sample.MEMORY_SIZE _ _ _ _ _ Sample_masks_ok
           Sample_distinct Opcode.SUB Sample.SUB_R0_R1 cpu eq_refl eq_refl).
Defined.

(** ADD R0, R1 with 0xFFFF + 2. *)
Lemma carry_completes_ADD_SUB_witness :
  let cpu := Sample.machine [] 0xFFFF 2 0 false in
  let cpu' := sample_execute Sample.ADD_R0_R1 cpu in
  0xFFFF + 2 = reg 0 cpu' + 65536 * Z.b2z (flag Sample.FLAG_CARRY cpu').
Proof.
  intros cpu cpu'.
  assert (Hok : state_ok (state cpu)) by sample_state_ok.
  destruct (carry_completes_ADD_SUB Sample.MEMORY_SIZE _ _ _ _ _ Sample_masks_ok
              Sample_distinct Sample.ADD_R0_R1 cpu Hok) as (H & _).
  exact (H eq_refl).
Defined.

(** SHR R0 with R0 = 7. *)
Lemma carry_completes_shifts_witness :
  let cpu := Sample.machine [] 7 0 0 false in
  let cpu' := sample_execute Sample.SHR_R0 cpu in
  7 = 2 * reg 0 cpu' + Z.b2z (flag Sample.FLAG_CARRY cpu').
Proof.
  intros cpu cpu'.
  assert (Hok : state_ok (state cpu)) by sample_state_ok.
  destruct (carry_completes_shifts Sample.MEMORY_SIZE _ _ _ _ _ Sample_masks_ok
              Sample_distinct Sample.SHR_R0 cpu Hok) as (_ & H).
  exact (H eq_refl).
Defined.

(** SUB R0, R1 with 3 and 5. *)
Lemma SUB_compares_witness :
  let cpu := Sample.machine [] 3 5 0 false in
  flag Sample.FLAG_CARRY (sample_execute Sample.SUB_R0_R1 cpu) = false.
Proof.
  intros cpu.
  assert (Hok : state_ok (state cpu)) by sample_state_ok.
  destruct (SUB_compares Sample.MEMORY_SIZE _ _ _ _ _ Sample_masks_ok
              Sample_distinct Sample.SUB_R0_R1 cpu Hok eq_refl) as (_ & H & _).
  apply H. reflexivity.
Defined.

(** SUB R0, R1 then JZ R1 with R0 = R1 = 0x0040. *)
Lemma SUB_then_JZ_witness :
  let cpu := Sample.machine [] 0x0040 0x0040 0 false in
  PC (state (sample_execute Sample.JZ_R1 (sample_execute Sample.SUB_R0_R1 cpu))) =
  reg 1 (sample_execute Sample.SUB_R0_R1 cpu).
Proof.
  intros cpu.
  assert (Hok : state_ok (state cpu)) by sample_state_ok.
  destruct (SUB_then_JZ Sample.MEMORY_SIZE _ _ _ _ _ Sample_masks_ok
              Sample_distinct Sample.SUB_R0_R1 Sample.JZ_R1 cpu Hok eq_refl eq_refl)
    as (H & _).
  exact (H eq_refl).
Defined.

(** ADD R0, R1 then SUB R0, R1 with a wrapping sum. *)
Lemma ADD_then_SUB_restores_witness :
  let cpu := Sample.machine [] 0xFFF0 0x0020 0 false in
  R (state (sample_execute Sample.SUB_R0_R1 (sample_execute Sample.ADD_R0_R1 cpu))) =
  R (state cpu).
Proof.
  intros cpu.
  assert (Hok : state_ok (state cpu)) by sample_state_ok.
  apply (ADD_then_SUB_restores Sample.MEMORY_SIZE Sample.FLAG_ZERO Sample.FLAG_CARRY
           Sample.FLAG_NEGATIVE Sample.FLAGS_BITS _ Sample_distinct
           Sample.ADD_R0_R1 Sample.SUB_R0_R1 cpu Hok eq_refl eq_refl eq_refl eq_refl).
  vm_compute. congruence.
Defined.


(** NOT R0, R1 then NOT R0, R0 with R1 = 0x1234. *)
Lemma NOT_twice_witness :
  let cpu := Sample.machine [] 0 0x1234 0 false in
  reg 0 (sample_execute Demo.NOT_R0_R0 (sample_execute Demo.NOT_R0_R1 cpu)) = 0x1234.
Proof.
  intros cpu.
  assert (Hok : state_ok (state cpu)) by sample_state_ok.
  exact (NOT_twice Sample.MEMORY_SIZE _ _ _ _ _ Sample_masks_ok Sample_distinct
           Demo.NOT_R0_R1 Demo.NOT_R0_R0 cpu Hok eq_refl eq_refl eq_refl eq_refl).
Defined.

(** ADD R0, R0 and SHL R0 with R0 = 0xC001. *)
Lemma ADD_self_is_SHL_witness :
  let cpu := Sample.machine [] 0xC001 0 0 false in
  sample_execute Demo.ADD_R0_R0 cpu = sample_execute Sample.SHL_R0 cpu.
Proof.
  intros cpu.
  assert (Hok : state_ok (state cpu)) by sample_state_ok.
  exact (ADD_self_is_SHL Sample.MEMORY_SIZE Sample.FLAG_ZERO Sample.FLAG_CARRY
           Sample.FLAG_NEGATIVE Sample.FLAGS_BITS _ Sample_distinct
           Demo.ADD_R0_R0 Sample.SHL_R0 cpu Hok eq_refl eq_refl eq_refl eq_refl).
Defined.

(** STORE R0, (R1) then LOAD R0, (R1) with R0 = 0xBEEF and R1 = 0x0102. *)
Lemma STORE_then_LOAD_witness :
  let cpu := Sample.machine [] 0xBEEF 0x0102 0 false in
  reg 0 (sample_execute Demo.LOAD_R0_R1 (sample_execute Sample.STORE_R0_R1 cpu)) =
  0xBEEF.
Proof.
  intros cpu.
  assert (Hbus : bus_ok Sample.MEMORY_SIZE (bus cpu)) by sample_bus_ok.
  assert (Hok : state_ok (state cpu)) by sample_state_ok.
  destruct (STORE_then_LOAD Sample.MEMORY_SIZE _ _ _ _ _ Sample_masks_ok
              Sample_distinct Sample.STORE_R0_R1 Demo.LOAD_R0_R1 cpu Hbus Hok
              eq_refl eq_refl eq_refl) as (H & _).
  apply H. reflexivity.
Defined.

(** Two writes to cell 2 of a four-cell memory. *)
Lemma Bus_write_write_witness :
  Bus_write 4 (Bus_write 4 (mkBus [1; 2; 3; 4]) 2 9) 2 7 = mkBus [1; 2; 7; 4].
Proof.
  destruct (Bus_write_write 4 (mkBus [1; 2; 3; 4]) 2 3 9 7
              ltac:(lia) ltac:(lia)) as (H & _).
  rewrite H. reflexivity.
Defined.

(** The machine constructed on a new 64K Bus. *)
Lemma new_machine_witness :
  machine_ok Sample.MEMORY_SIZE Sample.FLAGS_BITS
    (GPRCPU_new (Bus_new Sample.MEMORY_SIZE)) /\
  Bus_read Sample.MEMORY_SIZE (Bus_new Sample.MEMORY_SIZE) 0x0102 = 0.
Proof.
  destruct (new_machine Sample.MEMORY_SIZE _ _ _ _ Sample_masks_ok
              (Bus_new Sample.MEMORY_SIZE)) as (Hb & Hr & Hm & _).
  split; [exact (Hm Hb) | apply Hr; unfold is_u16; lia].
Defined.

(** Reset of a halted machine with a HALT-free first word. *)
Lemma reset_restarts_witness :
  let cpu := Sample.machine [Sample.MOVI_R0_5] 1 2 7 true in
  reset cpu = GPRCPU_new (bus cpu) /\ snd (sample_step (reset cpu)) = true.
Proof.
  intros cpu.
  destruct (reset_restarts Sample.MEMORY_SIZE _ _ _ _ Sample.opcode_value
              Sample_masks_ok cpu) as (H & _ & _ & _ & _ & Hs).
  split; [exact H |]. rewrite Hs. vm_compute. reflexivity.
Defined.

(** Three steps of the program MOVI R0, 5; HALT. *)
Lemma invariants_are_kept_witness :
  let cpu := Sample.machine [Sample.MOVI_R0_5; Sample.HALT_] 0 0 0 false in
  machine_ok Sample.MEMORY_SIZE Sample.FLAGS_BITS
    (steps Sample.MEMORY_SIZE Sample.FLAG_ZERO Sample.FLAG_CARRY
       Sample.FLAG_NEGATIVE Sample.FLAGS_BITS Sample.opcode_value 3 cpu).
Proof.
  intros cpu.
  assert (Hbus : bus_ok Sample.MEMORY_SIZE (bus cpu)) by sample_bus_ok.
  assert (Hok : state_ok (state cpu)) by sample_state_ok.
  assert (Hf : flags_ok Sample.FLAGS_BITS cpu) by sample_flags_ok.
  destruct (invariants_are_kept Sample.MEMORY_SIZE _ _ _ _ Sample.opcode_value
              Sample.SIZE_BITS Sample_masks_ok cpu (conj Hbus (conj Hok Hf)))
    as (H & _).
  exact (H 3%nat).
Defined.

(** Run of a halted machine. *)
Lemma halted_is_final_witness :
  let cpu := Sample.machine [Sample.MOVI_R0_5] 1 2 0 true in
  sample_run 5 cpu = Some (cpu, 0).
Proof.
  intros cpu.
  destruct (halted_is_final Sample.MEMORY_SIZE Sample.FLAG_ZERO Sample.FLAG_CARRY
              Sample.FLAG_NEGATIVE Sample.FLAGS_BITS Sample.opcode_value
              Sample.SIZE_BITS cpu eq_refl) as (_ & H).
  apply H. lia.
Defined.

(** The program MOVI R0, 5; HALT: the machine returned by [run] is halted. *)
Lemma run_ends_halted_witness :
  exists cpu' : GPRCPU,
    run Demo.small_memory Sample.FLAG_ZERO Sample.FLAG_CARRY Sample.FLAG_NEGATIVE
      Sample.FLAGS_BITS Sample.opcode_value Sample.SIZE_BITS 2 Demo.program_machine =
    Some (cpu', 1) /\
    halted (state cpu') = true /\
    run Demo.small_memory Sample.FLAG_ZERO Sample.FLAG_CARRY Sample.FLAG_NEGATIVE
      Sample.FLAGS_BITS Sample.opcode_value Sample.SIZE_BITS 10 Demo.program_machine =
    Some (cpu', 1).
Proof.
  assert (E : exists cpu' : GPRCPU,
            run Demo.small_memory Sample.FLAG_ZERO Sample.FLAG_CARRY
              Sample.FLAG_NEGATIVE Sample.FLAGS_BITS Sample.opcode_value
              Sample.SIZE_BITS 2 Demo.program_machine = Some (cpu', 1))
    by (eexists; vm_compute; reflexivity).
  destruct E as [cpu' E].
  destruct (run_ends_halted Demo.small_memory Sample.FLAG_ZERO Sample.FLAG_CARRY
              Sample.FLAG_NEGATIVE Sample.FLAGS_BITS Sample.opcode_value
              Sample.SIZE_BITS 2 Demo.program_machine cpu' 1 E) as (Hh & Hmore & _).
  exists cpu'. split; [exact E |]. split; [exact Hh |]. apply Hmore. lia.
Defined.

(** JMP R1 at address 0 with R1 = 0. *)
Lemma self_jump_never_halts_witness :
  let cpu := Sample.machine [Sample.JMP_R1] 5 0 0 false in
  sample_run 1000 cpu = None.
Proof.
  intros cpu.
  destruct (self_jump_never_halts Sample.MEMORY_SIZE Sample.FLAG_ZERO
              Sample.FLAG_CARRY Sample.FLAG_NEGATIVE Sample.FLAGS_BITS
              Sample.opcode_value Sample.SIZE_BITS Sample_distinct cpu eq_refl)
    as (_ & _ & H); [vm_compute; reflexivity | vm_compute; reflexivity |].
  apply H.
Defined.

(** A step on NOP and a step on HALT. *)
Lemma HALT_and_NOP_steps_witness :
  let idle := Sample.machine [Demo.NOP_] 1 2 0 false in
  let stop := Sample.machine [Sample.HALT_] 1 2 0 false in
  sample_step idle = (set_PC 1 idle, true) /\
  sample_step stop = (set_halted true (set_PC 1 stop), false).
Proof.
  intros idle stop.
  destruct (HALT_and_NOP_steps Sample.MEMORY_SIZE Sample.FLAG_ZERO
              Sample.FLAG_CARRY Sample.FLAG_NEGATIVE Sample.FLAGS_BITS
              Sample.opcode_value Sample_distinct idle eq_refl) as (_ & Hn).
  destruct (HALT_and_NOP_steps Sample.MEMORY_SIZE Sample.FLAG_ZERO
              Sample.FLAG_CARRY Sample.FLAG_NEGATIVE Sample.FLAGS_BITS
              Sample.opcode_value Sample_distinct stop eq_refl) as (Hh & _).
  split.
  - apply Hn. left. vm_compute. reflexivity.
  - apply Hh. vm_compute. reflexivity.
Defined.

(** A step at the last address of a 64K memory: the word 0 found there is
    a HALT under [Sample.opcode_value], and PC wraps around to 0. *)
Lemma step_advances_PC_witness :
  let cpu := set_PC 0xFFFF (Sample.machine [Sample.MOVI_R0_5] 1 2 0 false) in
  bus_ok Sample.MEMORY_SIZE (bus cpu) /\
  sample_read (bus cpu) (PC (state cpu)) = Sample.HALT_ /\
  PC (state (fst (sample_step cpu))) = 0.
Proof.
  intros cpu.
  assert (Hbus : bus_ok Sample.MEMORY_SIZE (bus cpu)) by sample_bus_ok.
  split; [exact Hbus |]. split; [vm_compute; reflexivity |].
  destruct (step_advances_PC Sample.MEMORY_SIZE Sample.FLAG_ZERO Sample.FLAG_CARRY
              Sample.FLAG_NEGATIVE Sample.FLAGS_BITS Sample.opcode_value cpu eq_refl)
    as (_ & _ & H); [vm_compute; congruence | vm_compute; congruence |].
  apply H. reflexivity.
Defined.

(** The word 0x1005 and the word put together from 1, 0, 0, 5. *)
Lemma decode_reassembles_witness :
  0x1005 = decodeOpcode 0x1005 * 4096 + decodeRd 0x1005 * 512 + decodeImm9 0x1005 /\
  decodeOpcode (1 * 4096 + 0 * 512 + 0 * 64 + 5) = 1.
Proof.
  destruct (decode_reassembles 0x1005 ltac:(unfold is_u16; lia)) as (H & _ & _ & Hr).
  split; [exact H |].
  destruct (Hr 1 0 0 5 ltac:(lia) ltac:(lia) ltac:(lia) ltac:(lia)) as (_ & Ho & _).
  exact Ho.
Defined.

(** A step of a four-cell machine with PC = 9. *)
Lemma fetch_beyond_capacity_witness :
  let cpu := Demo.small_machine 9 in
  fst (step Demo.small_memory Sample.FLAG_ZERO Sample.FLAG_CARRY Sample.FLAG_NEGATIVE
         Sample.FLAGS_BITS Sample.opcode_value cpu) =
  set_halted true (set_PC 10 cpu).
Proof.
  intros cpu.
  destruct (fetch_beyond_capacity Demo.small_memory Sample.FLAG_ZERO Sample.FLAG_CARRY
              Sample.FLAG_NEGATIVE Sample.FLAGS_BITS Sample.opcode_value cpu eq_refl)
    as (H & _); [vm_compute; congruence |].
  rewrite H. reflexivity.
Defined.

(** The lines 70000 and -1 placed into an empty image, and a first line
    with a number beyond a 64-bit [unsigned long]. *)
Lemma place_operands_effect_witness :
  place_operands Sample.MEMORY_SIZE Demo.ULONG_BITS (Sample.load [])
    (Number false 99999999999999999999999) Empty = None /\
  exists b : Bus,
    place_operands Sample.MEMORY_SIZE Demo.ULONG_BITS (Sample.load [])
      (Number false 70000) (Number true 1) = Some b /\
    sample_read b 0x100 = 4464 /\ sample_read b 0x101 = 65535 /\
    sample_read b 0x102 = sample_read (Sample.load []) 0x102.
Proof.
  assert (Hbus : bus_ok Sample.MEMORY_SIZE (Sample.load [])) by sample_bus_ok.
  split.
  - destruct (place_operands_effect Sample.MEMORY_SIZE Demo.ULONG_BITS
                (Sample.load []) (Number false 99999999999999999999999) Empty
                Hbus ltac:(vm_compute; reflexivity) ltac:(vm_compute; congruence))
      as (_ & _ & _ & H & _).
    apply H; [discriminate | reflexivity].
  - destruct (place_operands_effect Sample.MEMORY_SIZE Demo.ULONG_BITS
                (Sample.load []) (Number false 70000) (Number true 1)
                Hbus ltac:(vm_compute; reflexivity) ltac:(vm_compute; congruence))
      as (_ & _ & _ & _ & _ & H).
    destruct (H 70000 eq_refl (or_intror (ex_intro _ 18446744073709551615 eq_refl)))
      as (b & Eb & _ & H0 & H1 & Hother).
    exists b. split; [exact Eb |]. split; [exact H0 |]. split; [exact H1 |].
    apply Hother; [unfold is_u16; lia | lia | lia].
Defined.
